(** * afthumbs: extraction of embedded PNG images from a binary file

    A shallow embedding of [docs/afthumbs.py].  The script is a straight
    sequence of I/O statements, so it is embedded as a program in a state and
    exception monad over a small model of the process environment (file
    system, standard input, standard output), and its results are then
    characterised by pure functions on the bytes of the input file. *)

From Stdlib Require Import NArith ZArith Ascii String List Lia.
From Stdlib.Strings Require Import Byte.
From stdpp Require Import base decidable option numbers list sorting strings pretty gmap.

Local Open Scope string_scope.
Local Open Scope nat_scope.
Local Open Scope list_scope.

(** ** Bytes *)

Abbreviation bytes := (list byte).

#[global] Instance byte_eq_dec : EqDecision byte.
Proof. intros a b. exact (Byte.byte_eq_dec a b). Defined.

(** [b"\x89\x50\x4e\x47\x0d\x0a\x1a\x0a"] *)
Definition PNG_SIGNATURE : bytes := [x89; x50; x4e; x47; x0d; x0a; x1a; x0a].

(** [int.from_bytes(bs, byteorder='little', signed=False)]: the first byte is
    the least significant one; the empty sequence gives 0. *)
Fixpoint from_bytes_little (bs : bytes) : N :=
  match bs with
  | [] => 0
  | b :: rest => Byte.to_N b + 256 * from_bytes_little rest
  end%N.

(** The first [n] elements of [l], all of [l] when it has fewer.  The count
    is a binary number since the script asks for up to [2^32 + 7] bytes. *)
Fixpoint read_n {A} (n : N) (l : list A) : list A :=
  match l with
  | [] => []
  | x :: rest => if (n =? 0)%N then [] else x :: read_n (N.pred n) rest
  end.

(** [str(i)] for a non-negative integer: its decimal digits. *)
Definition str (i : nat) : string := pretty i.

(** ** The process environment *)

(** The file system: regular files and directories by path.  Every file has
    one name in this model (no links, no second spelling of a path).
    [mkdir_fault] is the error number, if any, with which the system refuses
    to create a directory that does not exist yet (no permission, read-only
    or full device, ...). *)
Record FS := mkFS {
  files : gmap string bytes;
  dirs : gset string;
  mkdir_fault : option Z
}.

(** [errno] values used below (Linux numbering). *)
Definition ENOENT : Z := 2.
Definition EEXIST : Z := 17.
Definition ENOTDIR : Z := 20.
Definition EISDIR : Z := 21.

(** Exceptions that can leave the script. *)
Inductive exn :=
  | SystemExit (msg : string)
  | OSError (errno : Z)
  | IndexError
  | EOFError.

(** The state of a run: the file system, the lines still to be read from
    standard input, what was written to standard output (one entry per
    [print], and one per prompt), and the position of the one file the script
    keeps open for reading, [binary_file]. *)
Record State := mkState {
  fs : FS;
  stdin : list string;
  stdout : list string;
  pos : nat
}.

Definition set_fs (f : FS → FS) (st : State) : State :=
  mkState (f (fs st)) (stdin st) (stdout st) (pos st).
Definition set_pos (p : nat) (st : State) : State :=
  mkState (fs st) (stdin st) (stdout st) p.
Definition emit (s : string) (st : State) : State :=
  mkState (fs st) (stdin st) (stdout st ++ [s]) (pos st).

(** ** The monad: state, with exceptions that keep the state reached *)

Definition M (A : Type) : Type := State → (exn + A) * State.

#[global] Instance M_ret : MRet M := λ A x st, (inr x, st).
#[global] Instance M_bind : MBind M := λ A B f m st,
  match m st with
  | (inr x, st') => f x st'
  | (inl e, st') => (inl e, st')
  end.

Definition raise {A} (e : exn) : M A := λ st, (inl e, st).

(** [try: m except ... as e: h e] *)
Definition try_except {A} (m : M A) (h : exn → M A) : M A := λ st,
  match m st with
  | (inl e, st') => h e st'
  | r => r
  end.

(** ** Built-ins and system calls *)

Definition print (s : string) : M unit := λ st, (inr tt, emit s st).

(** [input(prompt)]: the prompt is written, one line is read; end of input
    raises [EOFError]. *)
Definition input (prompt : string) : M string := λ st,
  match stdin st with
  | [] => (inl EOFError, emit prompt st)
  | l :: rest => (inr l, mkState (fs st) rest (stdout st ++ [prompt]) (pos st))
  end.

(** [sys.argv[k]] *)
Definition index (argv : list string) (k : nat) : M string :=
  match argv !! k with
  | Some a => mret a
  | None => raise IndexError
  end.

(** [os.mkdir(p)] *)
Definition os_mkdir (p : string) : M unit := λ st,
  if bool_decide (p ∈ dirs (fs st)) || bool_decide (p ∈ dom (files (fs st)))
  then (inl (OSError EEXIST), st)
  else match mkdir_fault (fs st) with
       | Some e => (inl (OSError e), st)
       | None => (inr tt, set_fs (λ f, mkFS (files f) ({[p]} ∪ dirs f) (mkdir_fault f)) st)
       end.

(** The directory part of a path: what precedes its last ["/"]; [None] for a
    path without one (a name in the current directory). *)
Fixpoint dirname (p : string) : option string :=
  match p with
  | EmptyString => None
  | String c rest =>
      match dirname rest with
      | Some d => Some (String c d)
      | None => if Ascii.eqb c "/" then Some EmptyString else None
      end
  end.

Definition dir_exists (f : FS) (p : string) : Z + unit :=
  match dirname p with
  | None => inr tt
  | Some d =>
      if bool_decide (d ∈ dirs f) then inr tt
      else if bool_decide (d ∈ dom (files f)) then inl ENOTDIR
      else inl ENOENT
  end.

(** [open(p, "rb")]: the file must exist; reading starts at position 0. *)
Definition open_rb (p : string) : M unit := λ st,
  if bool_decide (p ∈ dirs (fs st)) then (inl (OSError EISDIR), st)
  else match files (fs st) !! p with
       | Some _ => (inr tt, set_pos 0 st)
       | None => (inl (OSError ENOENT), st)
       end.

(** [open(p, "wb")]: the directory of [p] must exist and [p] must not be a
    directory; the file is created, or emptied when it exists. *)
Definition open_wb (p : string) : M unit := λ st,
  match dir_exists (fs st) p with
  | inl e => (inl (OSError e), st)
  | inr _ =>
      if bool_decide (p ∈ dirs (fs st)) then (inl (OSError EISDIR), st)
      else (inr tt, set_fs (λ f, mkFS (<[p := []]> (files f)) (dirs f) (mkdir_fault f)) st)
  end.

(** [outfile.write(data)] on the file opened under the name [p] *)
Definition write (p : string) (data : bytes) : M unit := λ st,
  (inr tt,
   set_fs (λ f, mkFS (<[p := default [] (files f !! p) ++ data]> (files f))
                     (dirs f) (mkdir_fault f)) st).

(** The bytes now stored under the name of the file open for reading. *)
Definition contents (p : string) (st : State) : bytes :=
  default [] (files (fs st) !! p).

(** [binary_file.seek(i)], [binary_file.seek(0, 2)], [binary_file.tell()] and
    [binary_file.read(n)]: a read returns the bytes from the position on, at
    most [n] of them, and moves the position past them. *)
Definition seek (i : nat) : M unit := λ st, (inr tt, set_pos i st).
Definition seek_end (p : string) : M unit := λ st,
  (inr tt, set_pos (length (contents p st)) st).
Definition tell : M nat := λ st, (inr (pos st), st).
Definition read (p : string) (n : N) : M bytes := λ st,
  let bs := read_n n (drop (pos st) (contents p st)) in
  (inr bs, set_pos (pos st + length bs) st).

(** ** The script *)

(** The body of [for i in range(num_bytes)]; [count] is threaded through. *)
Definition scan_at (p : string) (i : nat) (count : nat) : M nat :=
  seek i;;
  eight_bytes ← read p 8;
  if bool_decide (eight_bytes = PNG_SIGNATURE) then
    let count := count + 1 in
    print ("Found PNG Signature #" +:+ str count +:+ " at " +:+ str i);;
    png_size_bytes ← read p 4;
    let png_size := from_bytes_little png_size_bytes in
    seek i;;
    png_data ← read p (png_size + 8);
    print "Writing PNG to pngs/ directory";;
    try_except (os_mkdir "pngs")
      (λ e, match e with
            | OSError errno => if bool_decide (errno ≠ EEXIST) then raise e else mret tt
            | _ => raise e
            end);;
    (let outfile := "pngs/" +:+ str i +:+ ".png" in
     open_wb outfile;; write outfile png_data);;
    print "Done!";;
    mret count
  else mret count.

Fixpoint for_range (body : nat → nat → M nat) (range : list nat) (count : nat) : M nat :=
  match range with
  | [] => mret count
  | i :: rest => count' ← body i count; for_range body rest count'
  end.

(** The first statement: the file name comes from the command line or from
    the prompt; the argument list, extended in the second case, is returned. *)
Definition select_file (argv : list string) : M (list string) :=
  if bool_decide (length argv ≠ 1) then
    a ← index argv 1;
    print ("Selecting file..." +:+ a);;
    mret argv
  else
    filename ← input "Enter a Affinity filename to scan or press ENTER to skip: ";
    if bool_decide (filename = "") then
      raise (SystemExit "No Args or filename given, exiting!")
    else
      let argv := argv ++ [filename] in
      a ← index argv 1;
      print ("Selecting file... " +:+ a);;
      mret argv.

(** The [with open(sys.argv[1], "rb") as binary_file:] block; [count] is
    returned. *)
Definition scan_file (p : string) : M nat :=
  open_rb p;;
  print ("Opening file: " +:+ p);;
  seek_end p;;
  num_bytes ← tell;
  print ("File size: " +:+ str num_bytes +:+ "B");;
  print "Try to find PNG signatures";;
  for_range (scan_at p) (seq 0 num_bytes) 0.

Definition main (argv : list string) : M unit :=
  argv ← select_file argv;
  p ← index argv 1;
  count ← scan_file p;
  if bool_decide (count = 0) then print "No png signatures found?" else mret tt.

(** A run of the script from a file system and the lines on standard input:
    how it ended, what it printed, and the file system it left. *)
Definition run (argv : list string) (input_lines : list string) (f : FS)
  : (exn + unit) * list string * FS :=
  let '(r, st) := main argv (mkState f input_lines [] 0) in (r, stdout st, fs st).

(** The exit status of the process: 0 when the script runs to its end;
    [sys.exit] with a message, and any uncaught exception, give 1. *)
Definition exit_status (r : exn + unit) : Z :=
  match r with
  | inr _ => 0
  | inl _ => 1
  end.

(** ** What a run computes, as functions of the bytes of the input file *)

(** The eight bytes read at offset [i] are the PNG signature. *)
Definition signature_at (data : bytes) (i : nat) : bool :=
  bool_decide (read_n 8 (drop i data) = PNG_SIGNATURE).

(** [png_size] and [png_data] for a signature found at offset [i]. *)
Definition png_size (data : bytes) (i : nat) : N :=
  from_bytes_little (read_n 4 (drop (i + 8) data)).
Definition png_data (data : bytes) (i : nat) : bytes :=
  read_n (png_size data i + 8) (drop i data).

(** The name of the file written for offset [i]. *)
Definition outfile (i : nat) : string := "pngs/" +:+ str i +:+ ".png".

(** The offsets of [range] at which the signature is read, in the order of
    the scan; [matches] are those of [range(num_bytes)]. *)
Definition hits (data : bytes) (range : list nat) : list nat :=
  filter (λ i, signature_at data i = true) range.
Definition matches (data : bytes) : list nat := hits data (seq 0 (length data)).

(** The file system once the directory [pngs] is there, and after the
    extraction at offset [i]. *)
Definition with_dir (f : FS) : FS :=
  mkFS (files f) ({["pngs"]} ∪ dirs f) (mkdir_fault f).
Definition extract (data : bytes) (f : FS) (i : nat) : FS :=
  mkFS (<[outfile i := png_data data i]> (files f)) ({["pngs"]} ∪ dirs f) (mkdir_fault f).

(** The files written for the offsets [l], by name. *)
Definition outputs (data : bytes) (l : list nat) : gmap string bytes :=
  list_to_map ((λ i, (outfile i, png_data data i)) <$> l).

(** The lines printed for the signatures found, [count] being the number found
    before them. *)
Fixpoint report (count : nat) (offsets : list nat) : list string :=
  match offsets with
  | [] => []
  | i :: rest =>
      ["Found PNG Signature #" +:+ str (count + 1) +:+ " at " +:+ str i;
       "Writing PNG to pngs/ directory"; "Done!"] ++ report (count + 1) rest
  end.

Definition no_signatures : string := "No png signatures found?".

(** What [scan_file] prints before the loop, and all that is printed from
    the opening of the file on. *)
Definition heading (p : string) (data : bytes) : list string :=
  ["Opening file: " +:+ p; "File size: " +:+ str (length data) +:+ "B";
   "Try to find PNG signatures"].
Definition transcript (p : string) (data : bytes) : list string :=
  heading p data
  ++ report 0 (matches data)
  ++ (if bool_decide (length (matches data) = 0) then [no_signatures] else []).

(** The file name a run settles on, and what it prints until then: the first
    command-line argument, or else a non-empty line typed at the prompt. *)
Definition selection (argv input_lines : list string) : option (string * list string) :=
  match argv with
  | [_] =>
      match input_lines with
      | filename :: _ =>
          if bool_decide (filename = "") then None
          else Some (filename,
                     ["Enter a Affinity filename to scan or press ENTER to skip: ";
                      "Selecting file... " +:+ filename])
      | [] => None
      end
  | _ :: a :: _ => Some (a, ["Selecting file..." +:+ a])
  | [] => None
  end.

(** ** Conditions on the environment *)

(** [p] names a regular file holding [data]. *)
Definition input_file (f : FS) (p : string) (data : bytes) : Prop :=
  files f !! p = Some data ∧ p ∉ dirs f.

(** The input file is not one of the files the script writes. *)
Definition not_an_output (p : string) : Prop := ∀ i, p ≠ outfile i.

(** The directory [pngs] exists or can be created, and no directory stands
    where an output file goes. *)
Definition output_ready (f : FS) : Prop :=
  (("pngs" ∈ dirs f) ∨ (("pngs" ∉ dom (files f)) ∧ mkdir_fault f = None))
  ∧ ∀ i, outfile i ∉ dirs f.

(** The four bytes of [n] in little-endian order, [n.to_bytes(4, 'little')]. *)
Definition to_bytes_little4 (n : N) : bytes :=
  map (λ k, default x00 (Byte.of_N ((n / 256 ^ k) mod 256)%N)) [0; 1; 2; 3]%N.

(** The byte at offset [k] of the file; past its end, zero. *)
Definition byte_at (data : bytes) (k : nat) : N :=
  Byte.to_N (default x00 (data !! k)).

Arguments str : simpl never.
Arguments outfile : simpl never.

(** Two byte sequences of the same length that differ at exactly one
    position. *)
Definition differs_in_one (s t : bytes) : Prop :=
  length s = length t ∧
  ∃ k, s !! k ≠ t !! k ∧ ∀ k', k' ≠ k → s !! k' = t !! k'.

(** ** Sample files *)

(** The script run on [a.bin], the only file of an otherwise empty file
    system. *)
Definition sample_argv : list string := ["afthumbs.py"; "a.bin"].
Definition sample_fs (data : bytes) : FS := mkFS {["a.bin" := data]} ∅ None.

(** A signature at offset 2, a declared length of 5, the payload [ABCDE] and
    sixteen bytes after it. *)
Definition sample_payload : bytes := [x41; x42; x43; x44; x45].
Definition sample_single : bytes :=
  [x00; x01] ++ PNG_SIGNATURE ++ to_bytes_little4 5 ++ sample_payload ++ repeat x00 16.

(** A signature at offset 1 whose declared length, [2^32 - 1], runs far past
    the end of the file. *)
Definition sample_truncated : bytes :=
  [x00] ++ PNG_SIGNATURE ++ [xff; xff; xff; xff; x41; x42].

(** Signatures at offsets 0 and 13. *)
Definition sample_two : bytes :=
  PNG_SIGNATURE ++ to_bytes_little4 0 ++ [x00]
  ++ PNG_SIGNATURE ++ to_bytes_little4 2 ++ [x01; x02; x03].

(** The signature with its last byte changed, between two bytes. *)
Definition sample_near : bytes :=
  [x00] ++ [x89; x50; x4e; x47; x0d; x0a; x1a; x0b] ++ [x00].

(** A signature at offset 0 with a declared length of 20, and a second one at
    offset 12, inside the 28 bytes extracted for the first. *)
Definition sample_nested : bytes :=
  PNG_SIGNATURE ++ to_bytes_little4 20 ++ PNG_SIGNATURE ++ to_bytes_little4 0
  ++ repeat x00 8.

(** The start of a PNG stream at offset 1: the signature, the length 13 of
    the IHDR chunk in big-endian order, the chunk type and its first bytes. *)
Definition sample_png : bytes :=
  [x00] ++ PNG_SIGNATURE ++ [x00; x00; x00; x0d] ++ [x49; x48; x44; x52]
  ++ [x00; x00; x00; x10; x00; x00; x00; x10; x08; x06].

(** The directory [pngs] exists or can be created. *)
Definition dir_possible (f : FS) : Prop :=
  "pngs" ∈ dirs f ∨ (("pngs" ∉ dom (files f)) ∧ mkdir_fault f = None).

(** ** Independence of the console *)

(** A state with another standard input and with the first [n] entries of
    its standard output replaced by [sout]. *)
Definition reframe (sin sout : list string) (n : nat) (st : State) : State :=
  mkState (fs st) sin (sout ++ drop n (stdout st)) (pos st).

(** [m] neither reads standard input nor looks at what was printed: it
    commutes with [reframe]. *)
Definition framed {A} (m : M A) : Prop :=
  ∀ sin sout n st, n ≤ length (stdout st) →
    m (reframe sin sout n st) = ((m st).1, reframe sin sout n (m st).2)
    ∧ n ≤ length (stdout (m st).2).

(** * rename_plans: dating the plan files

    A shallow embedding of [.agent/scripts/rename_plans.py], which renames
    every [.md] file of one directory to its creation time followed by its
    name without a leading PLAN.  The directory is modelled by its regular
    files; each carries its creation time as local time, the result of
    [datetime.datetime.fromtimestamp(birthtime)]. *)

(** [s.endswith(suffix)] *)
Definition endswith (s suffix : string) : bool :=
  let n := String.length s in
  let m := String.length suffix in
  (m <=? n) && String.eqb (substring (n - m) m s) suffix.

(** [s.rfind(c)] for a character [c]: the highest index of [c] in [s], or -1. *)
Fixpoint rfind (c : ascii) (s : string) : Z :=
  match s with
  | EmptyString => -1
  | String a rest =>
      let k := rfind c rest in
      if (0 <=? k)%Z then (k + 1)%Z else if Ascii.eqb a c then 0%Z else (-1)%Z
  end.

(** [os.path.splitext(p)] of [posixpath]: the extension starts at the last
    dot after the last slash, unless only dots precede it in the name. *)
Definition splitext (p : string) : string * string :=
  let sepIndex := rfind "/" p in
  let dotIndex := rfind "." p in
  if (sepIndex <? dotIndex)%Z then
    let filenameIndex := Z.to_nat (sepIndex + 1) in
    let leading := substring filenameIndex (Z.to_nat dotIndex - filenameIndex) p in
    if forallb (λ a, Ascii.eqb a ".") (list_ascii_of_string leading) then (p, "")
    else (substring 0 (Z.to_nat dotIndex) p,
          substring (Z.to_nat dotIndex) (String.length p - Z.to_nat dotIndex) p)
  else (p, "").

(** The lower-case form of an ASCII letter; other characters are kept. *)
Definition lower (a : ascii) : ascii :=
  let n := nat_of_ascii a in
  if (65 <=? n) && (n <=? 90) then ascii_of_nat (n + 32) else a.

(** [re.sub(r'^PLAN-?', '', s, flags=re.IGNORECASE)]: a leading PLAN in any
    case is removed, with the dash that follows it if there is one. *)
Definition strip_plan (s : string) : string :=
  match s with
  | String c1 (String c2 (String c3 (String c4 rest))) =>
      if String.eqb (String (lower c1) (String (lower c2)
                       (String (lower c3) (String (lower c4) EmptyString)))) "plan"
      then match rest with
           | String c rest' => if Ascii.eqb c "-" then rest' else rest
           | EmptyString => rest
           end
      else s
  | _ => s
  end.

(** A local time to the minute, and [strftime('%Y-%m-%d_%H:%M')]. *)
Record LocalTime := mkLocalTime {
  year : nat; month : nat; day : nat; hour : nat; minute : nat
}.

Definition pad2 (n : nat) : string :=
  if n <? 10 then "0" +:+ pretty n else pretty n.

Definition strftime (t : LocalTime) : string :=
  pretty (year t) +:+ "-" +:+ pad2 (month t) +:+ "-" +:+ pad2 (day t)
  +:+ "_" +:+ pad2 (hour t) +:+ ":" +:+ pad2 (minute t).

(** The name the script gives to [filename], created at [birthtime]. *)
Definition new_filename (birthtime : LocalTime) (filename : string) : string :=
  let date_str := strftime birthtime in
  let name_no_ext := (splitext filename).1 in
  let new_name_core := strip_plan name_no_ext in
  date_str +:+ "-" +:+ new_name_core +:+ ".md".

(** The directory: its files by name, each with its creation time and its
    contents, the order in which [os.listdir] enumerates the names, and what
    the script has printed. *)
Record Plan := mkPlan { created : LocalTime; text : bytes }.
Record Folder := mkFolder {
  plans : gmap string Plan;
  order : list string;
  lines : list string
}.

Definition R (A : Type) : Type := Folder → (exn + A) * Folder.

#[global] Instance R_ret : MRet R := λ A x d, (inr x, d).
#[global] Instance R_bind : MBind R := λ A B k m d,
  match m d with
  | (inr x, d') => k x d'
  | (inl e, d') => (inl e, d')
  end.

Definition say (s : string) : R unit := λ d,
  (inr tt, mkFolder (plans d) (order d) (lines d ++ [s])).

Definition os_listdir : R (list string) := λ d, (inr (order d), d).

(** [os.stat(filepath).st_birthtime], as local time. *)
Definition os_stat (filename : string) : R LocalTime := λ d,
  match plans d !! filename with
  | Some e => (inr (created e), d)
  | None => (inl (OSError ENOENT), d)
  end.

(** [os.rename(src, dst)]: a file that has the new name is replaced. *)
Definition os_rename (src dst : string) : R unit := λ d,
  match plans d !! src with
  | Some e => (inr tt, mkFolder (<[dst := e]> (delete src (plans d))) (order d) (lines d))
  | None => (inl (OSError ENOENT), d)
  end.

Definition directory : string :=
  "/Users/marcusmaia/Documents/Desenvolvimento/Elleven-Library/docs/plans".

(** The body of the loop. *)
Definition rename_one (filename : string) : R unit :=
  if negb (endswith filename ".md") then mret tt
  else
    birthtime ← os_stat filename;
    let new_filename := new_filename birthtime filename in
    if bool_decide (filename ≠ new_filename) then
      say ("Renaming: " +:+ filename +:+ " -> " +:+ new_filename);;
      os_rename filename new_filename
    else
      say ("Skipping: " +:+ filename +:+ " (Already correct)").

Fixpoint for_each (body : string → R unit) (names : list string) : R unit :=
  match names with
  | [] => mret tt
  | name :: rest => body name;; for_each body rest
  end.

Definition rename_plans : R unit :=
  say ("Processing files in " +:+ directory +:+ "...");;
  listing ← os_listdir;
  for_each rename_one listing;;
  say "Done.".

(** [os.listdir] enumerates each name of the directory once. *)
Definition listed (d : Folder) : Prop :=
  NoDup (order d) ∧ ∀ name, name ∈ order d ↔ name ∈ dom (plans d).

(** A name made of dots only (or empty), and a decimal digit. *)
Definition all_dots (s : string) : bool :=
  forallb (λ a, Ascii.eqb a ".") (list_ascii_of_string s).
Definition is_digit (a : ascii) : Prop := 48 ≤ nat_of_ascii a ≤ 57.

(** The name a file of the directory is to get, and the directories in which
    no new name is that of an existing file or of two files. *)
Definition target (d : Folder) (name : string) : string :=
  match plans d !! name with
  | Some e => new_filename (created e) name
  | None => name
  end.

Definition collision_free (d : Folder) : Prop :=
  (∀ n, n ∈ dom (plans d) → endswith n ".md" = true → target d n ∉ dom (plans d))
  ∧ (∀ n1 n2, n1 ∈ dom (plans d) → n2 ∈ dom (plans d) →
              endswith n1 ".md" = true → endswith n2 ".md" = true →
              target d n1 = target d n2 → n1 = n2).

(** What the loop has reached when the names [done] are dealt with and the
    names [rest] are still to come, [c] being the directory now and [d] the
    directory at the start. *)
Definition renamed_so_far (d c : Folder) (done rest : list string) : Prop :=
  (∀ n, n ∈ rest → plans c !! n = plans d !! n)
  ∧ (∀ n, n ∈ done → endswith n ".md" = true →
          plans c !! target d n = plans d !! n ∧ plans c !! n = None)
  ∧ (∀ x, endswith x ".md" = false → plans c !! x = plans d !! x)
  ∧ (∀ x, x ∈ dom (plans c) →
          (x ∈ dom (plans d) ∧ (endswith x ".md" = false ∨ x ∈ rest))
          ∨ ∃ n, n ∈ done ∧ endswith n ".md" = true ∧ x = target d n).

(** The line printed for the renaming of [name]. *)
Definition renaming_line (d : Folder) (name : string) : string :=
  "Renaming: " +:+ name +:+ " -> " +:+ target d name.

(** Sample plans. *)
Definition sample_time : LocalTime := mkLocalTime 2026 1 29 9 0.
Definition sample_folder : Folder :=
  mkFolder {["PLAN-sorting.md" := mkPlan sample_time [x41];
             "plan_notes.md" := mkPlan (mkLocalTime 2026 2 3 17 45) [x42];
             "README.txt" := mkPlan sample_time [x43]]}
           ["README.txt"; "plan_notes.md"; "PLAN-sorting.md"] [].

(** ** Bytes and names *)

Section Reads.
Context {A : Type}.
Implicit Types l : list A.

Lemma read_n_take n l : read_n n l = take (N.to_nat n) l.
Proof.
  revert n. induction l as [|x l IH]; intros n; simpl.
  - by rewrite take_nil.
  - destruct (N.eqb_spec n 0) as [->|Hn]; [done|].
    rewrite IH. replace (N.to_nat n) with (S (N.to_nat (N.pred n))) by lia. done.
Qed.

Lemma read_n_length n l : length (read_n n l) = N.to_nat n `min` length l.
Proof. by rewrite read_n_take, length_take. Qed.

Lemma read_n_all n l : length l ≤ N.to_nat n → read_n n l = l.
Proof. intros. rewrite read_n_take. by apply take_ge. Qed.
End Reads.

Lemma from_bytes_little_bound bs : (from_bytes_little bs < 256 ^ N.of_nat (length bs))%N.
Proof.
  induction bs as [|b bs IH]; simpl from_bytes_little; simpl length; [done|].
  pose proof (Byte.to_N_bounded b).
  rewrite Nat2N.inj_succ, N.pow_succ_r'. lia.
Qed.

Lemma signature_at_spec data i :
  signature_at data i = true ↔ take 8 (drop i data) = PNG_SIGNATURE.
Proof.
  unfold signature_at. rewrite bool_decide_eq_true, read_n_take. done.
Qed.

Lemma signature_at_lt data i : signature_at data i = true → i + 8 ≤ length data.
Proof.
  rewrite signature_at_spec. intros H.
  apply (f_equal length) in H. rewrite length_take, length_drop in H.
  change (length PNG_SIGNATURE) with 8 in H. lia.
Qed.

Lemma matches_spec data i : i ∈ matches data ↔ signature_at data i = true.
Proof.
  unfold matches, hits. rewrite list_elem_of_filter, elem_of_seq. split; [tauto|].
  intros H. split; [done|]. apply signature_at_lt in H. lia.
Qed.

Lemma string_length_app (s t : string) :
  String.length (s +:+ t) = String.length s + String.length t.
Proof. induction s as [|c s IH]; simpl; [done|]. by rewrite IH. Qed.

Lemma string_app_inv_tail (s1 s2 t : string) : s1 +:+ t = s2 +:+ t → s1 = s2.
Proof.
  revert s2. induction s1 as [|c s1 IH]; intros [|d s2] H.
  - done.
  - apply (f_equal String.length) in H.
    change (String.length t = S (String.length (s2 +:+ t))) in H.
    rewrite string_length_app in H. lia.
  - apply (f_equal String.length) in H.
    change (S (String.length (s1 +:+ t)) = String.length t) in H.
    rewrite string_length_app in H. lia.
  - change (String c (s1 +:+ t) = String d (s2 +:+ t)) in H.
    injection H as -> H. f_equal. by apply IH.
Qed.

#[global] Instance str_inj : Inj (=) (=) str.
Proof. intros i j H. unfold str in H. by apply (inj pretty) in H. Qed.

#[global] Instance outfile_inj : Inj (=) (=) outfile.
Proof.
  intros i j H. unfold outfile in H.
  apply (inj (String.append "pngs/")) in H.
  apply string_app_inv_tail in H. by apply (inj str).
Qed.

Lemma dirname_app_None (s t : string) :
  dirname s = None → dirname t = None → dirname (s +:+ t) = None.
Proof.
  intros Hs Ht. induction s as [|c s IH]; simpl in *; [done|].
  destruct (dirname s) eqn:E; [done|]. rewrite IH by done.
  by destruct (Ascii.eqb c "/").
Qed.

Lemma dirname_pretty_N_go x s : dirname s = None → dirname (pretty_N_go x s) = None.
Proof.
  revert s. induction (N.lt_wf_0 x) as [x _ IH]; intros s Hs.
  assert (x = 0 ∨ 0 < x)%N as [->|?] by lia.
  - by rewrite pretty_N_go_0.
  - rewrite pretty_N_go_step by done. apply IH.
    { by apply N.div_lt. }
    simpl. rewrite Hs. unfold pretty_N_char. by repeat case_match.
Qed.

Lemma dirname_str i : dirname (str i) = None.
Proof.
  unfold str, pretty, pretty_nat, pretty, pretty_N.
  case_decide; [done|]. by apply dirname_pretty_N_go.
Qed.

Lemma dirname_app_slash (s t : string) :
  dirname t = None → dirname (s +:+ String "/" t) = Some s.
Proof.
  intros Ht. induction s as [|c s IH].
  - change (dirname (String "/" t) = Some ""). simpl. by rewrite Ht.
  - change (dirname (String c (s +:+ String "/" t)) = Some (String c s)).
    simpl. by rewrite IH.
Qed.

Lemma dirname_outfile i : dirname (outfile i) = Some "pngs".
Proof.
  change (outfile i) with ("pngs" +:+ String "/" (str i +:+ ".png")).
  apply dirname_app_slash. by apply dirname_app_None; [apply dirname_str|].
Qed.

Lemma outfile_ne_pngs i : outfile i ≠ "pngs".
Proof.
  intros H. apply (f_equal dirname) in H. by rewrite dirname_outfile in H.
Qed.

(** ** One step of the scan *)

Lemma bind_inr {A B} (m : M A) (k : A → M B) st x st' :
  m st = (inr x, st') → (m ≫= k) st = k x st'.
Proof. unfold mbind, M_bind. by intros ->. Qed.

Lemma bind_inl {A B} (m : M A) (k : A → M B) st e st' :
  m st = (inl e, st') → (m ≫= k) st = (inl e, st').
Proof. unfold mbind, M_bind. by intros ->. Qed.

Lemma mkdir_pngs_ready st :
  ("pngs" ∈ dirs (fs st) ∨ (("pngs" ∉ dom (files (fs st))) ∧ mkdir_fault (fs st) = None)) →
  try_except (os_mkdir "pngs")
    (λ e, match e with
          | OSError errno => if bool_decide (errno ≠ EEXIST) then raise e else mret tt
          | _ => raise e
          end) st
  = (inr tt, set_fs with_dir st).
Proof.
  intros Hdir. unfold try_except, os_mkdir.
  destruct (decide ("pngs" ∈ dirs (fs st))) as [Hin|Hnin].
  - rewrite (bool_decide_eq_true_2 _ Hin). simpl.
    destruct st as [[fl ds mf] sin sout ps]; simpl in *.
    unfold mret, M_ret, set_fs, with_dir; simpl. do 3 f_equal.
    symmetry. apply subseteq_union_1_L. set_solver.
  - destruct Hdir as [?|[Hf Hm]]; [done|].
    rewrite (bool_decide_eq_false_2 _ Hnin), (bool_decide_eq_false_2 _ Hf), Hm. done.
Qed.

Lemma mkdir_pngs_fault st e :
  "pngs" ∉ dirs (fs st) → "pngs" ∉ dom (files (fs st)) →
  mkdir_fault (fs st) = Some e → e ≠ EEXIST →
  try_except (os_mkdir "pngs")
    (λ e, match e with
          | OSError errno => if bool_decide (errno ≠ EEXIST) then raise e else mret tt
          | _ => raise e
          end) st
  = (inl (OSError e), st).
Proof.
  intros Hd Hf Hm He. unfold try_except, os_mkdir.
  rewrite (bool_decide_eq_false_2 _ Hd), (bool_decide_eq_false_2 _ Hf), Hm. simpl.
  by rewrite (bool_decide_eq_true_2 _ He).
Qed.

Lemma save_ready i d st :
  "pngs" ∈ dirs (fs st) → outfile i ∉ dirs (fs st) →
  (open_wb (outfile i);; write (outfile i) d) st
  = (inr tt, set_fs (λ f, mkFS (<[outfile i := d]> (files f)) (dirs f) (mkdir_fault f)) st).
Proof.
  intros Hdir Hout. unfold open_wb, write, dir_exists, mbind, M_bind.
  rewrite dirname_outfile, (bool_decide_eq_true_2 _ Hdir), (bool_decide_eq_false_2 _ Hout).
  destruct st as [[fl ds mf] sin sout ps]; unfold set_fs; simpl.
  by rewrite lookup_insert_eq, insert_insert_eq.
Qed.

Lemma signature_at_length data i :
  signature_at data i = true → length (read_n 8 (drop i data)) = 8.
Proof. unfold signature_at. rewrite bool_decide_eq_true. by intros ->. Qed.

Section Step.
Variables (p : string) (data : bytes) (i c : nat) (st : State).
Hypothesis Hdata : contents p st = data.

Lemma scan_at_miss :
  signature_at data i = false →
  scan_at p i c st = (inr c, set_pos (i + length (read_n 8 (drop i data))) st).
Proof using Hdata.
  intros Hs. unfold scan_at, mbind, M_bind, seek, read. cbn [pos set_pos].
  change (contents p (set_pos i st)) with (contents p st). rewrite Hdata.
  unfold signature_at in Hs. by rewrite Hs.
Qed.

(** Up to the creation of the directory, a step at a signature does the
    same in every environment. *)
Lemma scan_at_hit_prefix (k : N → bytes → M nat) :
  signature_at data i = true →
  (seek i;;
   eight_bytes ← read p 8;
   if bool_decide (eight_bytes = PNG_SIGNATURE) then
     print ("Found PNG Signature #" +:+ str (c + 1) +:+ " at " +:+ str i);;
     png_size_bytes ← read p 4;
     seek i;;
     png_data ← read p (from_bytes_little png_size_bytes + 8);
     print "Writing PNG to pngs/ directory";;
     k (from_bytes_little png_size_bytes) png_data
   else mret c) st
  = k (png_size data i) (png_data data i)
      (mkState (fs st) (stdin st)
         (stdout st ++ ["Found PNG Signature #" +:+ str (c + 1) +:+ " at " +:+ str i;
                        "Writing PNG to pngs/ directory"])
         (i + length (png_data data i))).
Proof using Hdata.
  intros Hs. pose proof (signature_at_length _ _ Hs) as H8.
  do 2 (erewrite bind_inr by reflexivity).
  cbn [pos set_pos]. change (contents p (set_pos i st)) with (contents p st).
  rewrite Hdata. unfold signature_at in Hs. rewrite Hs, H8.
  do 5 (erewrite bind_inr by reflexivity).
  destruct st as [f sin sout ps]. unfold contents in *. simpl in *.
  rewrite Hdata. unfold emit, set_pos, png_data, png_size. simpl.
  by rewrite <- !app_assoc.
Qed.

Lemma scan_at_hit :
  signature_at data i = true → output_ready (fs st) →
  scan_at p i c st =
    (inr (c + 1),
     mkState (extract data (fs st) i) (stdin st)
             (stdout st ++ report c [i]) (i + length (png_data data i))).
Proof using Hdata.
  intros Hs [Hdir Hout]. unfold scan_at.
  rewrite (scan_at_hit_prefix (λ png_size png_data, _;; _;; _;; mret (c + 1))) by done.
  erewrite bind_inr by (by apply mkdir_pngs_ready).
  change ("pngs/" +:+ str i +:+ ".png") with (outfile i).
  erewrite bind_inr; cycle 1.
  { apply save_ready; simpl; [set_solver|].
    specialize (Hout i). pose proof (outfile_ne_pngs i). set_solver. }
  erewrite bind_inr by reflexivity.
  destruct st as [[fl ds mf] sin sout ps].
  unfold mret, M_ret, extract, emit, set_fs, with_dir. simpl.
  by rewrite <- !app_assoc.
Qed.

Lemma scan_at_fault e :
  signature_at data i = true →
  "pngs" ∉ dirs (fs st) → "pngs" ∉ dom (files (fs st)) →
  mkdir_fault (fs st) = Some e → e ≠ EEXIST →
  scan_at p i c st =
    (inl (OSError e),
     mkState (fs st) (stdin st)
       (stdout st ++ ["Found PNG Signature #" +:+ str (c + 1) +:+ " at " +:+ str i;
                      "Writing PNG to pngs/ directory"])
       (i + length (png_data data i))).
Proof using Hdata.
  intros Hs Hd Hf Hm He. unfold scan_at.
  rewrite (scan_at_hit_prefix (λ png_size png_data, _;; _;; _;; mret (c + 1))) by done.
  erewrite bind_inl; [done|]. by apply mkdir_pngs_fault.
Qed.
End Step.

(** ** The loop *)

Lemma contents_extract p data f i sin sout q :
  p ≠ outfile i →
  contents p (mkState (extract data f i) sin sout q) = default [] (files f !! p).
Proof. intros Hp. unfold contents. simpl. by rewrite lookup_insert_ne. Qed.

Lemma output_ready_extract data f i : output_ready f → output_ready (extract data f i).
Proof.
  intros [_ Hout]. split; simpl; [left; set_solver|].
  intros j. specialize (Hout j). pose proof (outfile_ne_pngs j). set_solver.
Qed.

Lemma output_ready_foldl data f l : output_ready f → output_ready (foldl (extract data) f l).
Proof.
  revert f. induction l as [|i l IH]; intros f Hf; simpl; [done|].
  by apply IH, output_ready_extract.
Qed.

Lemma report_app c l1 l2 : report c (l1 ++ l2) = report c l1 ++ report (c + length l1) l2.
Proof.
  revert c. induction l1 as [|i l1 IH]; intros c; simpl.
  - by rewrite Nat.add_0_r.
  - rewrite IH. replace (c + 1 + length l1) with (c + S (length l1)) by lia. done.
Qed.

Lemma for_range_scan p data range c st :
  contents p st = data → not_an_output p → output_ready (fs st) →
  ∃ q, for_range (scan_at p) range c st =
       (inr (c + length (hits data range)),
        mkState (foldl (extract data) (fs st) (hits data range)) (stdin st)
                (stdout st ++ report c (hits data range)) q).
Proof.
  intros Hd Hp. revert c st Hd.
  induction range as [|i range IH]; intros c st Hd Hr.
  - exists (pos st). destruct st. simpl. unfold mret, M_ret.
    by rewrite Nat.add_0_r, app_nil_r.
  - unfold hits. rewrite filter_cons. fold (hits data range).
    destruct (signature_at data i) eqn:Hs.
    + rewrite decide_True by done. cbn [for_range].
      erewrite bind_inr by (by apply scan_at_hit).
      edestruct (IH (c + 1)) as [q ->]; [| |exists q].
      * rewrite contents_extract by done. exact Hd.
      * by apply output_ready_extract.
      * cbn [fs stdin stdout length foldl report].
        rewrite app_nil_r, <- app_assoc.
        by replace (c + 1 + length (hits data range))
          with (c + S (length (hits data range))) by lia.
    + rewrite decide_False by done. cbn [for_range].
      erewrite bind_inr by (by apply scan_at_miss).
      destruct (IH c (set_pos (i + length (read_n 8 (drop i data))) st)) as [q Hq];
        [done|done|].
      exists q. by rewrite Hq.
Qed.

(** Without a signature at the offsets scanned, only the position moves. *)
Lemma for_range_misses p data range c st :
  contents p st = data → hits data range = [] →
  ∃ q, for_range (scan_at p) range c st = (inr c, set_pos q st).
Proof.
  intros Hd. revert st Hd. induction range as [|i range IH]; intros st Hd Hh.
  - exists (pos st). by destruct st.
  - unfold hits in Hh. rewrite filter_cons in Hh.
    destruct (signature_at data i) eqn:Hs.
    + by rewrite decide_True in Hh.
    + rewrite decide_False in Hh by done. cbn [for_range].
      erewrite bind_inr by (by apply scan_at_miss).
      destruct (IH (set_pos (i + length (read_n 8 (drop i data))) st)) as [q ->];
        [done|done|]. by exists q.
Qed.

(** The scan stops at the first signature when the directory cannot be made. *)
Lemma for_range_fault p data range c st e i0 rest :
  contents p st = data → hits data range = i0 :: rest →
  "pngs" ∉ dirs (fs st) → "pngs" ∉ dom (files (fs st)) →
  mkdir_fault (fs st) = Some e → e ≠ EEXIST →
  ∃ q, for_range (scan_at p) range c st =
       (inl (OSError e),
        mkState (fs st) (stdin st)
          (stdout st ++ ["Found PNG Signature #" +:+ str (c + 1) +:+ " at " +:+ str i0;
                         "Writing PNG to pngs/ directory"]) q).
Proof.
  intros Hd. revert st Hd. induction range as [|i range IH]; intros st Hd Hh Hdir Hf Hm He.
  - done.
  - unfold hits in Hh. rewrite filter_cons in Hh.
    destruct (signature_at data i) eqn:Hs.
    + rewrite decide_True in Hh by done. injection Hh as -> _. cbn [for_range].
      erewrite bind_inl by (by eapply scan_at_fault). by eexists.
    + rewrite decide_False in Hh by done. cbn [for_range].
      erewrite bind_inr by (by apply scan_at_miss).
      by apply (IH (set_pos _ st)).
Qed.

(** ** The whole run *)

Lemma select_file_selection argv p pre st :
  selection argv (stdin st) = Some (p, pre) →
  ∃ argv' sin',
    argv' !! 1 = Some p ∧
    select_file argv st = (inr argv', mkState (fs st) sin' (stdout st ++ pre) (pos st)).
Proof.
  intros Hsel. destruct st as [f sin sout ps]. simpl in Hsel.
  destruct argv as [|a0 [|a1 argv]]; [done| |].
  - destruct sin as [|filename sin]; [done|]. unfold selection in Hsel.
    destruct (decide (filename = "")) as [->|Hne]; [done|].
    rewrite bool_decide_eq_false_2 in Hsel by done. injection Hsel as <- <-.
    exists [a0; filename], sin. split; [done|].
    unfold select_file. rewrite bool_decide_eq_false_2 by (simpl; lia).
    erewrite bind_inr by reflexivity.
    rewrite bool_decide_eq_false_2 by done. cbn [app index lookup list_lookup].
    do 2 (erewrite bind_inr by reflexivity).
    unfold mret, M_ret, emit. simpl. by rewrite <- app_assoc.
  - injection Hsel as <- <-. exists (a0 :: a1 :: argv), sin. split; [done|].
    unfold select_file. rewrite bool_decide_eq_true_2 by (simpl; lia).
    by do 2 (erewrite bind_inr by reflexivity).
Qed.

Lemma scan_file_loop p data st :
  input_file (fs st) p data →
  scan_file p st =
    for_range (scan_at p) (seq 0 (length data)) 0
      (mkState (fs st) (stdin st) (stdout st ++ heading p data) (length data)).
Proof.
  intros [Hf Hd]. unfold scan_file.
  erewrite bind_inr; cycle 1.
  { unfold open_rb. by rewrite bool_decide_eq_false_2, Hf by done. }
  do 5 (erewrite bind_inr by reflexivity).
  destruct st as [f sin sout ps]. unfold contents, emit, set_pos. simpl in *.
  rewrite Hf. simpl. by rewrite <- !app_assoc.
Qed.

Lemma contents_input_file f p data sin sout q :
  input_file f p data → contents p (mkState f sin sout q) = data.
Proof. intros [Hf _]. unfold contents. simpl. by rewrite Hf. Qed.

Section Run.
Variables (argv input_lines : list string) (f : FS).
Variables (p : string) (pre : list string) (data : bytes).
Hypothesis Hsel : selection argv input_lines = Some (p, pre).
Hypothesis Hin : input_file f p data.

Lemma main_scan_file st :
  fs st = f → stdin st = input_lines →
  ∃ sin',
    main argv st =
      (count ← for_range (scan_at p) (seq 0 (length data)) 0;
       if bool_decide (count = 0) then print "No png signatures found?" else mret tt)
      (mkState f sin' ((stdout st ++ pre) ++ heading p data) (length data)).
Proof using Hsel Hin.
  intros Hfs Hstdin. rewrite <- Hstdin in Hsel.
  destruct (select_file_selection _ _ _ _ Hsel) as (argv' & sin' & Hp & Hsf).
  exists sin'. unfold main. erewrite bind_inr by exact Hsf.
  unfold index. rewrite Hp. erewrite bind_inr by reflexivity.
  unfold mbind at 1, M_bind at 1. rewrite (scan_file_loop p data); [|by rewrite Hfs].
  by rewrite Hfs.
Qed.

(** In a ready environment the run ends normally, prints the transcript and
    leaves the extractions of all matches. *)
Lemma run_scan :
  not_an_output p → output_ready f →
  run argv input_lines f =
    (inr tt, pre ++ transcript p data, foldl (extract data) f (matches data)).
Proof using Hsel Hin.
  intros Hp Hr. unfold run.
  destruct (main_scan_file (mkState f input_lines [] 0)) as [sin' Hmain]; [done..|].
  rewrite Hmain. clear Hmain.
  edestruct (for_range_scan p data (seq 0 (length data)) 0) as [q Hq];
    [by apply contents_input_file|done|exact Hr|].
  erewrite bind_inr by exact Hq. fold (matches data).
  unfold transcript. cbn [fs stdin stdout].
  rewrite Nat.add_0_l. case_bool_decide.
  - unfold print, emit. simpl. by rewrite <- !app_assoc.
  - unfold mret, M_ret. simpl. by rewrite app_nil_r, <- !app_assoc.
Qed.

(** When the directory [pngs] is missing and cannot be made, the first
    match ends the run. *)
Lemma run_fault e i0 rest :
  matches data = i0 :: rest →
  "pngs" ∉ dirs f → "pngs" ∉ dom (files f) → mkdir_fault f = Some e → e ≠ EEXIST →
  run argv input_lines f =
    (inl (OSError e),
     pre ++ heading p data
       ++ ["Found PNG Signature #" +:+ str 1 +:+ " at " +:+ str i0;
           "Writing PNG to pngs/ directory"],
     f).
Proof using Hsel Hin.
  intros Hm Hd Hf Hmf He. unfold run.
  destruct (main_scan_file (mkState f input_lines [] 0)) as [sin' Hmain]; [done..|].
  rewrite Hmain. clear Hmain.
  edestruct (for_range_fault p data (seq 0 (length data)) 0) as [q Hq];
    [by apply contents_input_file|exact Hm|exact Hd|exact Hf|exact Hmf|exact He|].
  erewrite bind_inl by exact Hq. simpl. by rewrite <- !app_assoc.
Qed.
End Run.

(** ** The closing message *)

(** No line printed during the scan is the closing message, whatever the
    environment does. *)
Lemma mkdir_pngs_stdout (h : exn → M unit) st r st' :
  (∀ e st1 r1 st1', h e st1 = (r1, st1') → stdout st1' = stdout st1) →
  try_except (os_mkdir "pngs") h st = (r, st') → stdout st' = stdout st.
Proof.
  intros Hh. unfold try_except, os_mkdir.
  repeat case_match; intros ?; simplify_eq; eauto.
  all: try (erewrite Hh by done); done.
Qed.

Lemma save_stdout q d st r st' :
  (open_wb q;; write q d) st = (r, st') → stdout st' = stdout st.
Proof.
  unfold open_wb, write, mbind, M_bind. repeat case_match; intros ?; by simplify_eq.
Qed.

Lemma scan_at_any p i c st :
  no_signatures ∉ stdout st →
  ∃ r st',
    scan_at p i c st = (r, st') ∧ no_signatures ∉ stdout st' ∧
    match r with
    | inr c' => c' = if signature_at (contents p st) i then c + 1 else c
    | inl _ => True
    end.
Proof.
  intros Hq. destruct (signature_at (contents p st) i) eqn:Hs.
  - unfold scan_at.
    rewrite (scan_at_hit_prefix p (contents p st) i c st eq_refl
               (λ png_size png_data, _;; _;; _;; mret (c + 1))) by done.
    set (st1 := mkState _ _ _ _).
    assert (no_signatures ∉ stdout st1) as Hq1.
    { subst st1. cbn [stdout]. rewrite !elem_of_app, !elem_of_cons, elem_of_nil.
      intros [?|[?|[?|[]]]]; [done|discriminate..]. }
    unfold mbind at 1, M_bind at 1.
    destruct (try_except _ _ st1) as [[e|[]] st2] eqn:E1.
    all: apply mkdir_pngs_stdout in E1;
      [|intros ????; unfold raise, mret, M_ret; repeat case_match; intros; by simplify_eq].
    { eexists _, _. split; [done|]. by rewrite E1. }
    unfold mbind at 1, M_bind at 1.
    change ("pngs/" +:+ str i +:+ ".png") with (outfile i).
    destruct ((open_wb (outfile i);; write (outfile i) (png_data (contents p st) i)) st2)
      as [[e|[]] st3] eqn:E2; apply save_stdout in E2.
    { eexists _, _. split; [done|]. by rewrite E2, E1. }
    eexists _, _. split; [reflexivity|]. split; [|done].
    cbn [stdout emit]. rewrite E2, E1, elem_of_app, list_elem_of_singleton.
    intros [?|?]; [done|discriminate].
  - rewrite (scan_at_miss p (contents p st)) by done.
    eexists _, _. split; [done|]. by split.
Qed.

Lemma for_range_any p range c st :
  no_signatures ∉ stdout st →
  ∃ r st',
    for_range (scan_at p) range c st = (r, st') ∧ no_signatures ∉ stdout st' ∧
    ∀ c', r = inr c' → c ≤ c'.
Proof.
  revert c st. induction range as [|i range IH]; intros c st Hq.
  - eexists _, _. split; [reflexivity|]. split; [done|]. intros c' [= ->]. lia.
  - destruct (scan_at_any p i c st Hq) as ([e|c1] & st1 & E & Hq1 & Hc).
    + eexists _, _. cbn [for_range]. erewrite bind_inl by exact E. by split.
    + destruct (IH c1 st1 Hq1) as (r & st' & E' & Hq' & Hc').
      exists r, st'. cbn [for_range]. erewrite bind_inr by exact E.
      split; [done|]. split; [done|]. intros c' ->. specialize (Hc' c' eq_refl).
      destruct (signature_at _ _); lia.
Qed.

Lemma for_range_found p data range c st :
  contents p st = data → hits data range ≠ [] → no_signatures ∉ stdout st →
  ∃ r st',
    for_range (scan_at p) range c st = (r, st') ∧ no_signatures ∉ stdout st' ∧
    ∀ c', r = inr c' → c < c'.
Proof.
  intros Hd. revert st Hd. induction range as [|i range IH]; intros st Hd Hh Hq; [done|].
  destruct (signature_at data i) eqn:Hs.
  - destruct (scan_at_any p i c st Hq) as ([e|c1] & st1 & E & Hq1 & Hc).
    + eexists _, _. cbn [for_range]. erewrite bind_inl by exact E. by split.
    + rewrite Hd, Hs in Hc. subst c1.
      destruct (for_range_any p range (c + 1) st1 Hq1) as (r & st' & E' & Hq' & Hc').
      exists r, st'. cbn [for_range]. erewrite bind_inr by exact E.
      split; [done|]. split; [done|]. intros c' ->. specialize (Hc' c' eq_refl). lia.
  - unfold hits in Hh. rewrite filter_cons, decide_False in Hh by (by rewrite Hs).
    cbn [for_range]. erewrite bind_inr by (by apply scan_at_miss).
    by apply (IH (set_pos _ st)).
Qed.

Lemma heading_quiet p data : no_signatures ∉ heading p data.
Proof.
  unfold heading. rewrite !elem_of_cons, elem_of_nil.
  intros [?|[?|[?|[]]]]; discriminate.
Qed.

Lemma selection_quiet argv input_lines p pre :
  selection argv input_lines = Some (p, pre) → no_signatures ∉ pre.
Proof.
  unfold selection. intros H. repeat case_match; simplify_eq.
  all: rewrite !elem_of_cons, elem_of_nil; intros H; repeat destruct H as [H|H];
    try discriminate; done.
Qed.

(** A file holding a signature never gets the closing message: the run
    either counts a match or is ended by an exception. *)
Lemma run_found argv input_lines f p pre data :
  selection argv input_lines = Some (p, pre) → input_file f p data →
  matches data ≠ [] →
  no_signatures ∉ (run argv input_lines f).1.2.
Proof.
  intros Hsel Hin Hm. unfold run.
  destruct (main_scan_file _ _ _ _ _ _ Hsel Hin (mkState f input_lines [] 0))
    as [sin' Hmain]; [done..|].
  rewrite Hmain. clear Hmain.
  edestruct (for_range_found p data (seq 0 (length data)) 0) as (r & st' & E & Hq & Hc);
    [by apply contents_input_file|exact Hm| |].
  { cbn [stdout]. change ([] ++ pre) with pre. rewrite elem_of_app.
    intros [?|?]; [by eapply selection_quiet|by eapply heading_quiet]. }
  destruct r as [e|c'].
  - erewrite bind_inl by exact E. done.
  - erewrite bind_inr by exact E. specialize (Hc c' eq_refl).
    rewrite bool_decide_eq_false_2 by lia. done.
Qed.

(** ** The matches and the files they leave *)

Lemma StronglySorted_lt_seq a n : StronglySorted lt (seq a n).
Proof.
  revert a. induction n as [|n IH]; intros a; simpl; constructor; [apply IH|].
  apply Forall_forall. intros x Hx. apply elem_of_seq in Hx. lia.
Qed.

Lemma StronglySorted_lt_filter (P : nat → Prop) `{∀ x, Decision (P x)} l :
  StronglySorted lt l → StronglySorted lt (filter P l).
Proof.
  induction 1 as [|x l Hl IH Hx]; [constructor|].
  rewrite filter_cons. case_decide; [|done]. constructor; [done|].
  apply Forall_forall. intros y Hy. apply list_elem_of_filter in Hy as [_ Hy].
  rewrite Forall_forall in Hx. by apply Hx.
Qed.

Lemma StronglySorted_lt_NoDup l : StronglySorted lt l → NoDup l.
Proof.
  induction 1 as [|x l Hl IH Hx]; constructor; [|done].
  intros Hin. rewrite Forall_forall in Hx. specialize (Hx x Hin). lia.
Qed.

Lemma StronglySorted_lt_ext l1 l2 :
  StronglySorted lt l1 → StronglySorted lt l2 → (∀ x, x ∈ l1 ↔ x ∈ l2) → l1 = l2.
Proof.
  intros H1 H2 Hel. apply (StronglySorted_unique_strong lt); [|done|done|].
  - intros; lia.
  - by apply NoDup_Permutation; [apply StronglySorted_lt_NoDup..|].
Qed.

Lemma matches_sorted data : StronglySorted lt (matches data).
Proof. apply StronglySorted_lt_filter, StronglySorted_lt_seq. Qed.

Lemma matches_NoDup data : NoDup (matches data).
Proof. apply StronglySorted_lt_NoDup, matches_sorted. Qed.

Lemma matches_take data i : i ∈ matches data ↔ take 8 (drop i data) = PNG_SIGNATURE.
Proof. by rewrite matches_spec, signature_at_spec. Qed.

Lemma matches_nil data :
  (∀ i, take 8 (drop i data) ≠ PNG_SIGNATURE) → matches data = [].
Proof.
  intros H. apply (StronglySorted_lt_ext _ []); [apply matches_sorted|constructor|].
  intros i. rewrite matches_take, elem_of_nil. naive_solver.
Qed.

Lemma matches_one data i :
  (∀ k, take 8 (drop k data) = PNG_SIGNATURE ↔ k = i) → matches data = [i].
Proof.
  intros H. apply StronglySorted_lt_ext; [apply matches_sorted|repeat constructor|].
  intros k. by rewrite matches_take, list_elem_of_singleton.
Qed.

Lemma matches_two data i j :
  i < j → (∀ k, take 8 (drop k data) = PNG_SIGNATURE ↔ k = i ∨ k = j) →
  matches data = [i; j].
Proof.
  intros Hij H. apply StronglySorted_lt_ext; [apply matches_sorted|repeat constructor; lia|].
  intros k. rewrite matches_take, !elem_of_cons, elem_of_nil. rewrite H. tauto.
Qed.

Section Extractions.
Variable data : bytes.
Implicit Types (f : FS) (l : list nat).

Lemma mkdir_fault_foldl f l : mkdir_fault (foldl (extract data) f l) = mkdir_fault f.
Proof. revert f. induction l as [|i l IH]; intros f; simpl; [done|]. by rewrite IH. Qed.

Lemma dirs_foldl f l :
  dirs (foldl (extract data) f l) = if l is [] then dirs f else {["pngs"]} ∪ dirs f.
Proof.
  revert f. induction l as [|i l IH]; intros f; simpl; [done|].
  rewrite IH. destruct l; simpl; [done|]. set_solver.
Qed.

Lemma files_foldl_other f l name :
  (∀ i, i ∈ l → name ≠ outfile i) →
  files (foldl (extract data) f l) !! name = files f !! name.
Proof.
  revert f. induction l as [|i l IH]; intros f Hn; simpl; [done|].
  rewrite IH by (intros; apply Hn; by right). simpl.
  apply lookup_insert_ne. intros <-. by apply (Hn i); [left|].
Qed.

Lemma files_foldl_hit f l i :
  i ∈ l → files (foldl (extract data) f l) !! outfile i = Some (png_data data i).
Proof.
  induction l as [|j l IH] using rev_ind; [by rewrite elem_of_nil|].
  rewrite elem_of_app, list_elem_of_singleton, foldl_snoc. simpl.
  destruct (decide (i = j)) as [->|Hne]; [by rewrite lookup_insert_eq|].
  intros [Hi|?]; [|done].
  rewrite lookup_insert_ne by (intros Heq; by apply (inj outfile) in Heq). by apply IH.
Qed.

Lemma dom_files_foldl f l name :
  name ∈ dom (files (foldl (extract data) f l)) ↔
  name ∈ dom (files f) ∨ ∃ i, i ∈ l ∧ name = outfile i.
Proof.
  induction l as [|j l IH] using rev_ind.
  - simpl. split; [by left|]. intros [?|(i & Hi & _)]; [done|by apply elem_of_nil in Hi].
  - rewrite foldl_snoc. simpl. rewrite dom_insert_L, elem_of_union, elem_of_singleton, IH.
    setoid_rewrite elem_of_app. setoid_rewrite list_elem_of_singleton. naive_solver.
Qed.

Lemma files_foldl_outputs f l :
  NoDup l → files (foldl (extract data) f l) = outputs data l ∪ files f.
Proof.
  unfold outputs. revert f. induction l as [|i l IH]; intros f Hl; simpl.
  - by rewrite (left_id_L ∅ (∪)).
  - apply NoDup_cons in Hl as [Hi Hl]. rewrite IH by done. simpl.
    rewrite <- insert_union_l. symmetry. apply insert_union_r.
    apply not_elem_of_list_to_map_1. rewrite <- list_fmap_compose.
    intros Hin. apply list_elem_of_fmap in Hin as (j & Hj & Hin). simpl in Hj.
    apply (inj outfile) in Hj. by subst.
Qed.

(** Extracting the same matches again changes nothing. *)
Lemma foldl_extract_again f l :
  foldl (extract data) (foldl (extract data) f l) l = foldl (extract data) f l.
Proof.
  set (g := foldl (extract data) f l).
  assert (files (foldl (extract data) g l) = files g) as Hfiles.
  { apply map_eq. intros name.
    destruct (decide (name ∈ outfile <$> l)) as [Hin|Hn].
    - apply list_elem_of_fmap in Hin as (i & -> & Hi).
      subst g. by rewrite !files_foldl_hit.
    - apply files_foldl_other. intros i Hi ->. apply Hn.
      by apply list_elem_of_fmap_2. }
  assert (dirs (foldl (extract data) g l) = dirs g) as Hdirs.
  { subst g. rewrite !dirs_foldl. destruct l; [done|]. set_solver. }
  assert (mkdir_fault (foldl (extract data) g l) = mkdir_fault g) as Hfault.
  { by rewrite mkdir_fault_foldl. }
  destruct (foldl (extract data) g l), g. simpl in *. by subst.
Qed.
End Extractions.

(** ** The length field *)

Lemma to_N_of_N_default (m : N) :
  (m < 256)%N → Byte.to_N (default x00 (Byte.of_N m)) = m.
Proof.
  intros Hm. destruct (Byte.of_N m) as [b|] eqn:E; simpl.
  - by apply Byte.to_of_N.
  - apply Byte.of_N_None_iff in E. lia.
Qed.

Lemma to_bytes_little4_length n : length (to_bytes_little4 n) = 4.
Proof. done. Qed.

Lemma from_to_bytes_little4 n :
  (n < 2 ^ 32)%N → from_bytes_little (to_bytes_little4 n) = n.
Proof.
  intros Hn. unfold to_bytes_little4. cbn [map from_bytes_little].
  rewrite !to_N_of_N_default by (apply N.mod_lt; lia).
  change (256 ^ 0)%N with 1%N. change (256 ^ 1)%N with 256%N.
  change (256 ^ 2)%N with (256 * 256)%N. change (256 ^ 3)%N with (256 * 256 * 256)%N.
  rewrite N.div_1_r, <- !N.Div0.div_div.
  assert (n / 256 / 256 / 256 < 256)%N as H3.
  { repeat (apply N.Div0.div_lt_upper_bound). lia. }
  rewrite (N.mod_small (n / 256 / 256 / 256)) by done.
  pose proof (N.div_mod n 256 ltac:(done)) as E0.
  pose proof (N.div_mod (n / 256) 256 ltac:(done)) as E1.
  pose proof (N.div_mod (n / 256 / 256) 256 ltac:(done)) as E2.
  generalize dependent (n `mod` 256)%N. generalize dependent ((n / 256) `mod` 256)%N.
  generalize dependent ((n / 256 / 256) `mod` 256)%N.
  generalize dependent (n / 256 / 256 / 256)%N. generalize dependent (n / 256 / 256)%N.
  generalize dependent (n / 256)%N. intros. lia.
Qed.

Lemma png_size_bytes data i :
  png_size data i =
    (byte_at data (i + 8) + 2 ^ 8 * byte_at data (i + 9)
     + 2 ^ 16 * byte_at data (i + 10) + 2 ^ 24 * byte_at data (i + 11))%N.
Proof.
  unfold png_size, byte_at. rewrite read_n_take.
  replace (i + 9) with (i + 8 + 1) by lia. replace (i + 10) with (i + 8 + 2) by lia.
  replace (i + 11) with (i + 8 + 3) by lia.
  rewrite <- (Nat.add_0_r (i + 8)) at 2. rewrite <- !lookup_drop.
  change (N.to_nat 4) with 4.
  destruct (drop (i + 8) data) as [|b0 [|b1 [|b2 [|b3 rest]]]];
    cbn [take from_bytes_little lookup list_lookup default id];
    rewrite ?take_0; cbn [from_bytes_little]; change (Byte.to_N x00) with 0%N; lia.
Qed.

Lemma png_size_bound data i : (png_size data i < 2 ^ 32)%N.
Proof.
  unfold png_size. rewrite read_n_take.
  pose proof (from_bytes_little_bound (take 4 (drop (i + 8) data))) as H.
  rewrite length_take in H.
  eapply N.lt_le_trans; [exact H|]. change (2 ^ 32)%N with (256 ^ 4)%N.
  apply N.pow_le_mono_r; lia.
Qed.

Lemma png_data_take data i :
  png_data data i = take (N.to_nat (png_size data i) + 8) (drop i data).
Proof. unfold png_data. rewrite read_n_take. f_equal. lia. Qed.

(** ** A file without signatures *)

Lemma run_none argv input_lines f p pre data :
  selection argv input_lines = Some (p, pre) → input_file f p data →
  matches data = [] →
  run argv input_lines f = (inr tt, pre ++ heading p data ++ [no_signatures], f).
Proof.
  intros Hsel Hin Hm. unfold run.
  destruct (main_scan_file _ _ _ _ _ _ Hsel Hin (mkState f input_lines [] 0))
    as [sin' Hmain]; [done..|].
  rewrite Hmain. clear Hmain.
  edestruct (for_range_misses p data (seq 0 (length data)) 0) as [q Hq];
    [by apply contents_input_file|exact Hm|].
  erewrite bind_inr by exact Hq. rewrite bool_decide_eq_true_2 by done.
  unfold print, emit. simpl. by rewrite <- !app_assoc.
Qed.

(** ** The sample environment *)

Lemma sample_selection :
  selection sample_argv [] = Some ("a.bin", ["Selecting file...a.bin"]).
Proof. reflexivity. Qed.

Lemma sample_input data : input_file (sample_fs data) "a.bin" data.
Proof. split; [apply lookup_singleton_eq|apply not_elem_of_empty]. Qed.

Lemma sample_not_an_output : not_an_output "a.bin".
Proof. intros i H. unfold outfile in H. discriminate H. Qed.

Lemma sample_ready data : output_ready (sample_fs data).
Proof.
  split; [right; split; [|done]|intros i; apply not_elem_of_empty].
  simpl. rewrite dom_singleton_L, elem_of_singleton. discriminate.
Qed.

Lemma matches_only data l k :
  matches data = l → take 8 (drop k data) = PNG_SIGNATURE → k ∈ l.
Proof. intros <-. by rewrite matches_take. Qed.

(** * The claims *)

(** ** C1: a single match, in bounds *)

Lemma layout_drop (pad rest : bytes) :
  drop (length pad) (pad ++ PNG_SIGNATURE ++ rest) = PNG_SIGNATURE ++ rest
  ∧ drop (length pad + 8) (pad ++ PNG_SIGNATURE ++ rest) = rest.
Proof.
  split.
  - by rewrite drop_app_length.
  - rewrite <- drop_drop, drop_app_length. by apply drop_app_length'.
Qed.

(** C1, amended.  For an input file
    [pad ++ PNG_SIGNATURE ++ length_field ++ payload ++ trail] whose length
    field is the 4-byte little-endian form of the length [L] of the payload,
    and in which the signature occurs at offset [i = length pad] only, the
    run ends normally and leaves exactly one new file, [pngs/<i>.png]; its
    contents are the [L + 8] bytes from offset [i] on: the signature followed
    by the first [L] bytes of [length_field ++ payload], that is, for
    [L >= 4], the signature, the length field and the payload without its
    last 4 bytes. *)
Theorem C1_single_match argv input_lines f p pre (pad payload trail : bytes) (L : N) :
  let length_field := to_bytes_little4 L in
  let data := pad ++ PNG_SIGNATURE ++ length_field ++ payload ++ trail in
  let i := length pad in
  let out := PNG_SIGNATURE ++ take (N.to_nat L) (length_field ++ payload) in
  selection argv input_lines = Some (p, pre) →
  input_file f p data → not_an_output p → output_ready f →
  (L < 2 ^ 32)%N → N.of_nat (length payload) = L →
  (∀ k, take 8 (drop k data) = PNG_SIGNATURE → k = i) →
  run argv input_lines f =
    (inr tt, pre ++ heading p data ++ report 0 [i],
     mkFS (<[outfile i := out]> (files f)) ({["pngs"]} ∪ dirs f) (mkdir_fault f))
  ∧ N.of_nat (length out) = (L + 8)%N
  ∧ ((4 ≤ L)%N →
     out = PNG_SIGNATURE ++ length_field ++ take (N.to_nat L - 4) payload).
Proof.
  intros length_field data i out Hsel Hin Hp Hr HL Hlen Honly.
  destruct (layout_drop pad (length_field ++ payload ++ trail)) as [Hd0 Hd8].
  fold data i in Hd0, Hd8.
  assert (matches data = [i]) as Hm.
  { apply matches_one. intros k. split; [apply Honly|intros ->].
    rewrite Hd0. by apply take_app_length'. }
  assert (png_size data i = L) as Hsize.
  { unfold png_size. rewrite read_n_take, Hd8.
    change (N.to_nat 4) with 4. rewrite take_app_length' by done.
    by apply from_to_bytes_little4. }
  assert (png_data data i = out) as Hdata.
  { rewrite png_data_take, Hsize, Hd0. subst out.
    rewrite take_app, (take_ge PNG_SIGNATURE) by (simpl; lia).
    f_equal. change (length PNG_SIGNATURE) with 8.
    replace (N.to_nat L + 8 - 8) with (N.to_nat L) by lia.
    rewrite (app_assoc length_field). apply take_app_le.
    rewrite length_app. lia. }
  split; [|split].
  - rewrite (run_scan _ _ _ _ _ _ Hsel Hin Hp Hr). unfold transcript.
    rewrite Hm. cbn [foldl length]. rewrite bool_decide_eq_false_2 by done.
    unfold extract. by rewrite Hdata, app_nil_r.
  - subst out. rewrite length_app, length_take, length_app.
    change (length PNG_SIGNATURE) with 8. change (length length_field) with 4. lia.
  - intros H4. subst out. f_equal. rewrite take_app. f_equal.
    apply take_ge. change (length length_field) with 4. lia.
Qed.

Lemma sample_single_matches : matches sample_single = [2].
Proof. by vm_compute. Qed.

Lemma C1_single_match_witness :
  let data := sample_single in
  let f := sample_fs data in
  let out := PNG_SIGNATURE ++ take 5 (to_bytes_little4 5 ++ sample_payload) in
  run sample_argv [] f =
    (inr tt, ["Selecting file...a.bin"] ++ heading "a.bin" data ++ report 0 [2],
     mkFS (<[outfile 2 := out]> (files f)) ({["pngs"]} ∪ dirs f) (mkdir_fault f))
  ∧ N.of_nat (length out) = (5 + 8)%N
  ∧ out = PNG_SIGNATURE ++ to_bytes_little4 5 ++ take (5 - 4) sample_payload.
Proof.
  destruct (C1_single_match sample_argv [] (sample_fs sample_single) "a.bin"
              ["Selecting file...a.bin"] [x00; x01] sample_payload (repeat x00 16) 5)
    as (Hrun & Hlen & Hout).
  - exact sample_selection.
  - exact (sample_input sample_single).
  - exact sample_not_an_output.
  - exact (sample_ready sample_single).
  - reflexivity.
  - reflexivity.
  - intros k Hk. apply (matches_only _ _ _ sample_single_matches) in Hk.
    by apply list_elem_of_singleton in Hk.
  - split; [exact Hrun|]. split; [exact Hlen|]. apply Hout. by vm_compute.
Defined.

(** C1 as stated fails on [sample_single]: the payload has [L = 5] bytes and
    [L + 8 = 13] does not exceed the bytes after the match, but the one file
    written, [pngs/2.png], holds 13 bytes, the signature, the length field and
    the first byte of the payload, not the [L + 12 = 17] bytes of signature,
    length field and payload. *)
Lemma C1_counterexample :
  let g := (run sample_argv [] (sample_fs sample_single)).2 in
  sample_single =
    [x00; x01] ++ PNG_SIGNATURE ++ to_bytes_little4 5 ++ sample_payload ++ repeat x00 16
  ∧ length sample_payload = 5
  ∧ files g !! "pngs/2.png" = Some (PNG_SIGNATURE ++ to_bytes_little4 5 ++ [x41])
  ∧ files g !! "pngs/2.png"
    ≠ Some (PNG_SIGNATURE ++ to_bytes_little4 5 ++ sample_payload).
Proof. vm_compute. repeat split. discriminate. Qed.

(** ** C2: the declared length and the range extracted *)

Lemma lookup_read_n (n : N) (l : bytes) k :
  k < length (read_n n l) → read_n n l !! k = l !! k.
Proof.
  rewrite read_n_take. intros Hk. apply lookup_take_lt.
  rewrite length_take in Hk. lia.
Qed.

(** C2.  For a signature at offset [i], the declared length [L] is the
    unsigned 32-bit little-endian number of the bytes at offsets [i+8] to
    [i+11] (a byte past the end of the file counting as zero: fewer than four
    bytes are read there), the file [pngs/<i>.png] the run leaves holds what
    [read(L + 8)] returns at offset [i], whose bytes are those of the input
    from offset [i] on, and it has exactly [L + 8] bytes when
    [i + L + 8] does not exceed the length of the file. *)
Theorem C2_declared_length argv input_lines f p pre (data : bytes) (i : nat) :
  let L := (byte_at data (i + 8) + 2 ^ 8 * byte_at data (i + 9)
            + 2 ^ 16 * byte_at data (i + 10) + 2 ^ 24 * byte_at data (i + 11))%N in
  let extracted := read_n (L + 8) (drop i data) in
  selection argv input_lines = Some (p, pre) →
  input_file f p data → not_an_output p → output_ready f →
  take 8 (drop i data) = PNG_SIGNATURE →
  png_size data i = L ∧ (L < 2 ^ 32)%N
  ∧ files (run argv input_lines f).2 !! outfile i = Some extracted
  ∧ (∀ k, k < length extracted → extracted !! k = data !! (i + k))
  ∧ ((N.of_nat i + L + 8 ≤ N.of_nat (length data))%N →
     N.of_nat (length extracted) = (L + 8)%N).
Proof.
  intros L extracted Hsel Hin Hp Hr Hs.
  assert (png_size data i = L) as HL by apply png_size_bytes.
  split; [done|]. split; [rewrite <- HL; apply png_size_bound|].
  split; [|split].
  - rewrite (run_scan _ _ _ _ _ _ Hsel Hin Hp Hr). cbn [snd].
    rewrite files_foldl_hit by (by apply matches_take).
    unfold png_data. by rewrite HL.
  - intros k Hk. subst extracted. rewrite lookup_read_n by done. apply lookup_drop.
  - intros Hfit. subst extracted. rewrite read_n_length, length_drop. lia.
Qed.

Lemma C2_declared_length_witness :
  let data := sample_single in
  let extracted := read_n (5 + 8) (drop 2 data) in
  png_size data 2 = 5%N ∧ (5 < 2 ^ 32)%N
  ∧ files (run sample_argv [] (sample_fs data)).2 !! outfile 2 = Some extracted
  ∧ extracted !! 12 = data !! (2 + 12)
  ∧ N.of_nat (length extracted) = (5 + 8)%N.
Proof.
  destruct (C2_declared_length sample_argv [] (sample_fs sample_single) "a.bin"
              ["Selecting file...a.bin"] sample_single 2)
    as (Hsize & Hbound & Hfile & Hbytes & Hlen).
  - exact sample_selection.
  - exact (sample_input sample_single).
  - exact sample_not_an_output.
  - exact (sample_ready sample_single).
  - reflexivity.
  - split; [exact Hsize|]. split; [exact Hbound|]. split; [exact Hfile|].
    split; [apply (Hbytes 12); vm_compute; lia|apply Hlen; by vm_compute].
Defined.

(** ** C3: a declared length that runs past the end of the file *)

(** C3.  For a signature at offset [i] whose declared length [L] has
    [i + L + 8] beyond the length of the file, the run ends normally with exit
    status 0, prints what it prints for any match (no line reports the short
    read), and the file [pngs/<i>.png] it leaves holds exactly the bytes from
    offset [i] to the end of the file, fewer than [L + 8]. *)
Theorem C3_truncated argv input_lines f p pre (data : bytes) (i : nat) :
  let L := png_size data i in
  selection argv input_lines = Some (p, pre) →
  input_file f p data → not_an_output p → output_ready f →
  take 8 (drop i data) = PNG_SIGNATURE →
  (N.of_nat (length data) < N.of_nat i + L + 8)%N →
  (run argv input_lines f).1 = (inr tt, pre ++ transcript p data)
  ∧ exit_status (run argv input_lines f).1.1 = 0%Z
  ∧ files (run argv input_lines f).2 !! outfile i = Some (drop i data)
  ∧ (N.of_nat (length (drop i data)) < L + 8)%N.
Proof.
  intros L Hsel Hin Hp Hr Hs Hover.
  rewrite (run_scan _ _ _ _ _ _ Hsel Hin Hp Hr). cbn [fst snd exit_status].
  split; [done|]. split; [done|]. split.
  - rewrite files_foldl_hit by (by apply matches_take). f_equal.
    unfold png_data. apply read_n_all. rewrite length_drop. fold L. lia.
  - rewrite length_drop. lia.
Qed.

Lemma C3_truncated_witness :
  let data := sample_truncated in
  let r := run sample_argv [] (sample_fs data) in
  r.1 = (inr tt, ["Selecting file...a.bin"] ++ transcript "a.bin" data)
  ∧ exit_status r.1.1 = 0%Z
  ∧ files r.2 !! outfile 1 = Some (drop 1 data)
  ∧ (N.of_nat (length (drop 1 data)) < png_size data 1 + 8)%N.
Proof.
  apply (C3_truncated sample_argv [] (sample_fs sample_truncated) "a.bin"
           ["Selecting file...a.bin"] sample_truncated 1).
  - exact sample_selection.
  - exact (sample_input sample_truncated).
  - exact sample_not_an_output.
  - exact (sample_ready sample_truncated).
  - reflexivity.
  - reflexivity.
Defined.

(** ** C4: the closing message *)

(** C4.  When the signature occurs at no offset of the input file, the run
    ends normally, leaves the file system as it was (no output file, no
    directory) and its last line is the closing message; when the signature
    occurs at some offset the closing message is not printed, whatever else
    happens in the run. *)
Theorem C4_no_signatures argv input_lines f p pre (data : bytes) :
  selection argv input_lines = Some (p, pre) →
  input_file f p data →
  ((∀ i, take 8 (drop i data) ≠ PNG_SIGNATURE) →
   run argv input_lines f = (inr tt, pre ++ heading p data ++ [no_signatures], f))
  ∧ ((∃ i, take 8 (drop i data) = PNG_SIGNATURE) →
     no_signatures ∉ (run argv input_lines f).1.2).
Proof.
  intros Hsel Hin. split.
  - intros Hnone. by apply run_none; [..|apply matches_nil].
  - intros [i Hi]. eapply run_found; [done..|].
    apply matches_take in Hi. intros Hnil. rewrite Hnil in Hi.
    by apply elem_of_nil in Hi.
Qed.

Lemma sample_near_matches : matches sample_near = [].
Proof. by vm_compute. Qed.

Lemma C4_no_signatures_witness :
  run sample_argv [] (sample_fs sample_near) =
    (inr tt,
     ["Selecting file...a.bin"] ++ heading "a.bin" sample_near ++ [no_signatures],
     sample_fs sample_near)
  ∧ no_signatures ∉ (run sample_argv [] (sample_fs sample_single)).1.2.
Proof.
  split.
  - apply (C4_no_signatures sample_argv [] (sample_fs sample_near) "a.bin"
             ["Selecting file...a.bin"] sample_near).
    + exact sample_selection.
    + exact (sample_input sample_near).
    + intros i Hi. apply (matches_only _ _ _ sample_near_matches) in Hi.
      by apply elem_of_nil in Hi.
  - apply (C4_no_signatures sample_argv [] (sample_fs sample_single) "a.bin"
             ["Selecting file...a.bin"] sample_single).
    + exact sample_selection.
    + exact (sample_input sample_single).
    + exists 2. reflexivity.
Defined.

(** ** C5: two matches *)

(** C5.  When the signature occurs at exactly two offsets [i] and [j] of the
    input file, the run ends normally, reports the lower offset and then the
    higher, and leaves exactly two new files, [pngs/<i>.png] and
    [pngs/<j>.png], each with the bytes [read(png_size + 8)] returns at its
    own offset. *)
Theorem C5_two_matches argv input_lines f p pre (data : bytes) (i j : nat) :
  selection argv input_lines = Some (p, pre) →
  input_file f p data → not_an_output p → output_ready f →
  i ≠ j →
  (∀ k, take 8 (drop k data) = PNG_SIGNATURE ↔ k = i ∨ k = j) →
  run argv input_lines f =
    (inr tt, pre ++ heading p data ++ report 0 [i `min` j; i `max` j],
     mkFS (<[outfile j := read_n (png_size data j + 8) (drop j data)]>
             (<[outfile i := read_n (png_size data i + 8) (drop i data)]> (files f)))
          ({["pngs"]} ∪ dirs f) (mkdir_fault f))
  ∧ outfile i ≠ outfile j.
Proof.
  intros Hsel Hin Hp Hr Hij Hocc.
  assert (outfile i ≠ outfile j) as Hne by (intros H; by apply (inj outfile) in H).
  split; [|done].
  rewrite (run_scan _ _ _ _ _ _ Hsel Hin Hp Hr). unfold transcript.
  assert (matches data = [i `min` j; i `max` j]) as ->.
  { apply matches_two; [lia|]. intros k. rewrite Hocc. lia. }
  cbn [length foldl]. rewrite bool_decide_eq_false_2 by done. rewrite app_nil_r.
  do 2 f_equal. unfold extract, png_data. cbn [files dirs mkdir_fault].
  destruct (decide (i < j)) as [Hlt|Hge].
  - rewrite Nat.min_l, Nat.max_r by lia. f_equal. set_solver.
  - rewrite Nat.min_r, Nat.max_l by lia. f_equal; [|set_solver].
    by apply insert_insert_ne.
Qed.

Lemma sample_two_matches : matches sample_two = [0; 13].
Proof. by vm_compute. Qed.

Lemma C5_two_matches_witness :
  let data := sample_two in
  let f := sample_fs data in
  run sample_argv [] f =
    (inr tt,
     ["Selecting file...a.bin"] ++ heading "a.bin" data ++ report 0 [13 `min` 0; 13 `max` 0],
     mkFS (<[outfile 0 := read_n (png_size data 0 + 8) (drop 0 data)]>
             (<[outfile 13 := read_n (png_size data 13 + 8) (drop 13 data)]> (files f)))
          ({["pngs"]} ∪ dirs f) (mkdir_fault f))
  ∧ outfile 13 ≠ outfile 0.
Proof.
  apply (C5_two_matches sample_argv [] (sample_fs sample_two) "a.bin"
           ["Selecting file...a.bin"] sample_two 13 0).
  - exact sample_selection.
  - exact (sample_input sample_two).
  - exact sample_not_an_output.
  - exact (sample_ready sample_two).
  - lia.
  - intros k. rewrite <- matches_take, sample_two_matches.
    rewrite !elem_of_cons, elem_of_nil. tauto.
Defined.

(** ** C6: byte-exact matching *)

(** C6.  For every offset [i] whose output file does not exist before the
    run, the file [pngs/<i>.png] exists after the run if and only if the 8
    bytes at offsets [i] to [i+7] are the signature 89 50 4E 47 0D 0A 1A 0A;
    in particular it does not exist when these 8 bytes differ from the
    signature in exactly one byte. *)
Theorem C6_exact_match argv input_lines f p pre (data : bytes) (i : nat) :
  selection argv input_lines = Some (p, pre) →
  input_file f p data → not_an_output p → output_ready f →
  outfile i ∉ dom (files f) →
  PNG_SIGNATURE = [x89; x50; x4e; x47; x0d; x0a; x1a; x0a]
  ∧ (outfile i ∈ dom (files (run argv input_lines f).2)
     ↔ take 8 (drop i data) = PNG_SIGNATURE)
  ∧ (differs_in_one (take 8 (drop i data)) PNG_SIGNATURE →
     outfile i ∉ dom (files (run argv input_lines f).2)).
Proof.
  intros Hsel Hin Hp Hr Hnew. split; [done|].
  assert (outfile i ∈ dom (files (run argv input_lines f).2)
          ↔ take 8 (drop i data) = PNG_SIGNATURE) as Hiff.
  { rewrite (run_scan _ _ _ _ _ _ Hsel Hin Hp Hr). cbn [snd].
    rewrite dom_files_foldl. split.
    - intros [?|(k & Hk & Heq)]; [done|]. apply (inj outfile) in Heq as ->.
      by apply matches_take.
    - intros Hs. right. exists i. by rewrite matches_take. }
  split; [done|].
  intros [_ (k & Hk & _)]. rewrite Hiff. intros Heq. by rewrite Heq in Hk.
Qed.

(** The bytes at offset 1 of [sample_near] differ from the signature in the
    last byte only. *)
Lemma sample_near_differs : differs_in_one (take 8 (drop 1 sample_near)) PNG_SIGNATURE.
Proof.
  split; [done|]. exists 7. split; [discriminate|].
  intros k Hk. do 8 (destruct k as [|k]; [done|]). done.
Qed.

Lemma C6_exact_match_witness :
  PNG_SIGNATURE = [x89; x50; x4e; x47; x0d; x0a; x1a; x0a]
  ∧ outfile 2 ∈ dom (files (run sample_argv [] (sample_fs sample_single)).2)
  ∧ outfile 1 ∉ dom (files (run sample_argv [] (sample_fs sample_near)).2).
Proof.
  split; [done|]. split.
  - apply (C6_exact_match sample_argv [] (sample_fs sample_single) "a.bin"
             ["Selecting file...a.bin"] sample_single 2).
    + exact sample_selection.
    + exact (sample_input sample_single).
    + exact sample_not_an_output.
    + exact (sample_ready sample_single).
    + simpl. rewrite dom_singleton_L, elem_of_singleton. discriminate.
    + reflexivity.
  - apply (C6_exact_match sample_argv [] (sample_fs sample_near) "a.bin"
             ["Selecting file...a.bin"] sample_near 1).
    + exact sample_selection.
    + exact (sample_input sample_near).
    + exact sample_not_an_output.
    + exact (sample_ready sample_near).
    + simpl. rewrite dom_singleton_L, elem_of_singleton. discriminate.
    + exact sample_near_differs.
Defined.

(** ** C7: no file name given *)

(** C7.  With no command-line argument and an empty line typed at the prompt,
    the run is ended by [sys.exit] with the message that no argument was
    given, the exit status is 1, only the prompt was printed (no file was
    opened or scanned) and the file system is as it was. *)
Theorem C7_no_argument (script : string) (input_lines : list string) (f : FS) :
  run [script] ("" :: input_lines) f =
    (inl (SystemExit "No Args or filename given, exiting!"),
     ["Enter a Affinity filename to scan or press ENTER to skip: "], f)
  ∧ exit_status (run [script] ("" :: input_lines) f).1.1 = 1%Z.
Proof. done. Qed.

(** ** C8: the output directory *)

Lemma input_not_pngs f p data : input_file f p data → output_ready f → p ≠ "pngs".
Proof.
  intros [Hf Hd] [[Hin|[Hnin _]] _] ->; [done|].
  apply Hnin, elem_of_dom. by eexists.
Qed.

Lemma input_file_foldl f p data l :
  input_file f p data → not_an_output p → p ≠ "pngs" →
  input_file (foldl (extract data) f l) p data.
Proof.
  intros [Hf Hd] Hp Hne. split.
  - rewrite files_foldl_other; [done|]. intros i _. apply Hp.
  - rewrite dirs_foldl. destruct l; [done|]. set_solver.
Qed.

(** A second run on the result of a first one prints the same and changes
    nothing. *)
Lemma run_twice argv input_lines f p pre data :
  selection argv input_lines = Some (p, pre) →
  input_file f p data → not_an_output p → output_ready f →
  run argv input_lines (run argv input_lines f).2 =
    (inr tt, (run argv input_lines f).1.2, (run argv input_lines f).2).
Proof.
  intros Hsel Hin Hp Hr.
  rewrite (run_scan _ _ _ _ _ _ Hsel Hin Hp Hr). cbn [fst snd].
  rewrite (run_scan _ _ _ p pre data); [by rewrite foldl_extract_again|done| |done|].
  - apply input_file_foldl; [done..|]. by eapply input_not_pngs.
  - by apply output_ready_foldl.
Qed.

(** C8.  [os.mkdir] failing because [pngs] exists already does not end the
    run: with the directory there the run ends normally (even where a new
    directory could not be made).  Any other failure of [os.mkdir] ends the
    run with that error at the first match, with exit status 1 and nothing
    written.  A second run on what a first run left ends normally as well,
    prints the same, and leaves every file as the first run left it: the
    output files are written again with the same bytes. *)
Theorem C8_directory argv input_lines f p pre (data : bytes) :
  selection argv input_lines = Some (p, pre) →
  input_file f p data → not_an_output p → (∀ i, outfile i ∉ dirs f) →
  ("pngs" ∈ dirs f →
   (∀ sin sout q, os_mkdir "pngs" (mkState f sin sout q)
                  = (inl (OSError EEXIST), mkState f sin sout q))
   ∧ run argv input_lines f =
       (inr tt, pre ++ transcript p data, foldl (extract data) f (matches data)))
  ∧ (∀ e, "pngs" ∉ dirs f → "pngs" ∉ dom (files f) →
          mkdir_fault f = Some e → e ≠ EEXIST →
          (∃ i, take 8 (drop i data) = PNG_SIGNATURE) →
          (run argv input_lines f).1.1 = inl (OSError e)
          ∧ exit_status (run argv input_lines f).1.1 = 1%Z
          ∧ (run argv input_lines f).2 = f)
  ∧ (output_ready f →
     (run argv input_lines f).1.1 = inr tt
     ∧ run argv input_lines (run argv input_lines f).2 =
         (inr tt, (run argv input_lines f).1.2, (run argv input_lines f).2)
     ∧ ∀ i, take 8 (drop i data) = PNG_SIGNATURE →
            files (run argv input_lines (run argv input_lines f).2).2 !! outfile i
            = Some (read_n (png_size data i + 8) (drop i data))
            ∧ files (run argv input_lines f).2 !! outfile i
              = Some (read_n (png_size data i + 8) (drop i data))).
Proof.
  intros Hsel Hin Hp Hout. split; [|split].
  - intros Hdir. split.
    + intros sin sout q. unfold os_mkdir. cbn [fs].
      by rewrite (bool_decide_eq_true_2 _ Hdir).
    + apply run_scan; [done..|]. split; [by left|done].
  - intros e Hd Hf Hm He [i Hi].
    destruct (matches data) as [|i0 rest] eqn:Hmatches.
    { apply matches_take in Hi. rewrite Hmatches in Hi. by apply elem_of_nil in Hi. }
    by rewrite (run_fault _ _ _ _ _ _ Hsel Hin e i0 rest).
  - intros Hr. rewrite (run_twice _ _ _ _ _ _ Hsel Hin Hp Hr).
    rewrite (run_scan _ _ _ _ _ _ Hsel Hin Hp Hr). cbn [fst snd].
    split; [done|]. split; [done|]. intros i Hi.
    by rewrite files_foldl_hit by (by apply matches_take).
Qed.

Lemma C8_directory_witness :
  let data := sample_single in
  let there := mkFS {["a.bin" := data]} {["pngs"]} (Some 13%Z) in
  let denied := mkFS {["a.bin" := data]} ∅ (Some 13%Z) in
  run sample_argv [] there =
    (inr tt, ["Selecting file...a.bin"] ++ transcript "a.bin" data,
     foldl (extract data) there (matches data))
  ∧ (run sample_argv [] denied).1.1 = inl (OSError 13)
  ∧ (run sample_argv [] denied).2 = denied
  ∧ run sample_argv [] (run sample_argv [] (sample_fs data)).2 =
      (inr tt, (run sample_argv [] (sample_fs data)).1.2,
       (run sample_argv [] (sample_fs data)).2).
Proof.
  intros data there denied.
  assert (∀ ds mf, (∀ i, outfile i ∉ ds) → "a.bin" ∉ ds →
            input_file (mkFS {["a.bin" := data]} ds mf) "a.bin" data
            ∧ ∀ i, outfile i ∉ dirs (mkFS {["a.bin" := data]} ds mf)) as Henv.
  { intros ds mf Hds Hp. split; [split; [apply lookup_singleton_eq|exact Hp]|exact Hds]. }
  assert ("pngs" ∉ dom (files denied)) as Hnew.
  { cbn [files denied]. rewrite dom_singleton_L, elem_of_singleton. discriminate. }
  destruct (Henv {["pngs"]} (Some 13%Z)) as [Hin1 Hout1].
  { intros i. rewrite elem_of_singleton. apply outfile_ne_pngs. }
  { rewrite elem_of_singleton. discriminate. }
  destruct (Henv ∅ (Some 13%Z)) as [Hin2 Hout2].
  { intros i. apply not_elem_of_empty. }
  { apply not_elem_of_empty. }
  pose proof (C8_directory sample_argv [] there "a.bin" ["Selecting file...a.bin"] data
                sample_selection Hin1 sample_not_an_output Hout1) as (Hthere & _ & _).
  pose proof (C8_directory sample_argv [] denied "a.bin" ["Selecting file...a.bin"] data
                sample_selection Hin2 sample_not_an_output Hout2) as (_ & Hdenied & _).
  pose proof (C8_directory sample_argv [] (sample_fs data) "a.bin"
                ["Selecting file...a.bin"] data
                sample_selection (sample_input data) sample_not_an_output
                (proj2 (sample_ready data))) as (_ & _ & Htwice).
  destruct Hthere as [_ Hrun]; [unfold there; cbn [dirs]; by apply elem_of_singleton|].
  destruct (Hdenied 13%Z) as (Hexn & _ & Hfs);
    [unfold denied; cbn [dirs]; apply not_elem_of_empty|exact Hnew|reflexivity
    |discriminate|exists 2; reflexivity|].
  destruct (Htwice (sample_ready data)) as (_ & Hagain & _).
  split; [exact Hrun|]. split; [exact Hexn|]. split; [exact Hfs|exact Hagain].
Defined.

(** ** C9: every offset is scanned *)

(** C9.  The run reports the matches in strictly increasing order of offset,
    the matches are all the offsets at which the signature occurs, and each
    of them has its own output file with the bytes read at that offset; this
    holds as well for an offset [j] inside the range of bytes extracted for
    an earlier offset [i]. *)
Theorem C9_every_offset argv input_lines f p pre (data : bytes) :
  selection argv input_lines = Some (p, pre) →
  input_file f p data → not_an_output p → output_ready f →
  (run argv input_lines f).1 =
    (inr tt,
     pre ++ heading p data ++ report 0 (matches data)
     ++ (if bool_decide (length (matches data) = 0) then [no_signatures] else []))
  ∧ StronglySorted lt (matches data)
  ∧ (∀ i, i ∈ matches data ↔ take 8 (drop i data) = PNG_SIGNATURE)
  ∧ (∀ i, take 8 (drop i data) = PNG_SIGNATURE →
          files (run argv input_lines f).2 !! outfile i
          = Some (read_n (png_size data i + 8) (drop i data)))
  ∧ (∀ i j, take 8 (drop i data) = PNG_SIGNATURE →
            take 8 (drop j data) = PNG_SIGNATURE →
            i < j < i + length (read_n (png_size data i + 8) (drop i data)) →
            outfile j ≠ outfile i
            ∧ files (run argv input_lines f).2 !! outfile j
              = Some (read_n (png_size data j + 8) (drop j data))).
Proof.
  intros Hsel Hin Hp Hr.
  assert (∀ i, take 8 (drop i data) = PNG_SIGNATURE →
               files (run argv input_lines f).2 !! outfile i
               = Some (read_n (png_size data i + 8) (drop i data))) as Hfile.
  { intros i Hi. rewrite (run_scan _ _ _ _ _ _ Hsel Hin Hp Hr). cbn [snd].
    by rewrite files_foldl_hit by (by apply matches_take). }
  split; [by rewrite (run_scan _ _ _ _ _ _ Hsel Hin Hp Hr)|].
  split; [apply matches_sorted|]. split; [apply matches_take|].
  split; [done|]. intros i j Hi Hj Hij. split; [|by apply Hfile].
  intros Heq. apply (inj outfile) in Heq. lia.
Qed.

Lemma sample_nested_matches : matches sample_nested = [0; 12].
Proof. by vm_compute. Qed.

Lemma C9_every_offset_witness :
  let data := sample_nested in
  let r := run sample_argv [] (sample_fs data) in
  r.1 = (inr tt,
         ["Selecting file...a.bin"] ++ heading "a.bin" data ++ report 0 [0; 12])
  ∧ length (read_n (png_size data 0 + 8) (drop 0 data)) = 28
  ∧ files r.2 !! outfile 0 = Some (read_n (png_size data 0 + 8) (drop 0 data))
  ∧ outfile 12 ≠ outfile 0
  ∧ files r.2 !! outfile 12 = Some (read_n (png_size data 12 + 8) (drop 12 data)).
Proof.
  destruct (C9_every_offset sample_argv [] (sample_fs sample_nested) "a.bin"
              ["Selecting file...a.bin"] sample_nested)
    as (Hrun & _ & _ & Hfile & Hnested).
  - exact sample_selection.
  - exact (sample_input sample_nested).
  - exact sample_not_an_output.
  - exact (sample_ready sample_nested).
  - split; [|split; [reflexivity|split; [by apply Hfile|]]].
    + rewrite Hrun, sample_nested_matches. cbn [length].
      rewrite bool_decide_eq_false_2 by done. by rewrite app_nil_r.
    + apply (Hnested 0 12); [reflexivity|reflexivity|]. vm_compute. lia.
Defined.

(** ** C10: the result depends on the bytes of the input only *)

(** C10.  Two runs on input files with the same bytes, whatever the two
    environments, the names of the two input files and the way they were
    given, end the same way, print the same lines once the file is opened
    (its size, one group of lines per match with its number and offset, the
    closing message if there is no match) and write the same files with the
    same bytes: each run leaves the files it found, overlaid with
    [outputs data (matches data)]. *)
Theorem C10_deterministic
    argv1 input_lines1 f1 p1 pre1 argv2 input_lines2 f2 p2 pre2 (data : bytes) :
  selection argv1 input_lines1 = Some (p1, pre1) →
  input_file f1 p1 data → not_an_output p1 → output_ready f1 →
  selection argv2 input_lines2 = Some (p2, pre2) →
  input_file f2 p2 data → not_an_output p2 → output_ready f2 →
  let r1 := run argv1 input_lines1 f1 in
  let r2 := run argv2 input_lines2 f2 in
  r1.1.1 = r2.1.1
  ∧ drop (length pre1 + 1) r1.1.2 = drop (length pre2 + 1) r2.1.2
  ∧ (p1 = p2 → pre1 = pre2 → r1.1.2 = r2.1.2)
  ∧ files r1.2 = outputs data (matches data) ∪ files f1
  ∧ files r2.2 = outputs data (matches data) ∪ files f2
  ∧ dom (outputs data (matches data)) = list_to_set (outfile <$> matches data).
Proof.
  intros Hsel1 Hin1 Hp1 Hr1 Hsel2 Hin2 Hp2 Hr2 r1 r2. subst r1 r2.
  rewrite (run_scan _ _ _ _ _ _ Hsel1 Hin1 Hp1 Hr1).
  rewrite (run_scan _ _ _ _ _ _ Hsel2 Hin2 Hp2 Hr2). cbn [fst snd].
  split; [done|]. split; [|split; [|split; [|split]]].
  - unfold transcript, heading.
    rewrite !drop_app_add'. 2,3: done.
    done.
  - by intros -> ->.
  - apply files_foldl_outputs, matches_NoDup.
  - apply files_foldl_outputs, matches_NoDup.
  - unfold outputs. rewrite dom_list_to_map_L, <- list_fmap_compose. done.
Qed.

Lemma C10_deterministic_witness :
  let data := sample_two in
  let other := mkFS {["b.bin" := data; "pngs/0.png" := [x00]]} {["pngs"]} None in
  let r1 := run sample_argv [] (sample_fs data) in
  let r2 := run ["afthumbs.py"] ["b.bin"] other in
  r1.1.1 = r2.1.1
  ∧ drop 2 r1.1.2 = drop 3 r2.1.2
  ∧ files r1.2 = outputs data (matches data) ∪ files (sample_fs data)
  ∧ files r2.2 = outputs data (matches data) ∪ files other
  ∧ dom (outputs data (matches data)) = list_to_set (outfile <$> matches data).
Proof.
  intros data other.
  destruct (C10_deterministic sample_argv [] (sample_fs data) "a.bin"
              ["Selecting file...a.bin"]
              ["afthumbs.py"] ["b.bin"] other "b.bin"
              ["Enter a Affinity filename to scan or press ENTER to skip: ";
               "Selecting file... b.bin"] data)
    as (Hend & Hout & _ & Hf1 & Hf2 & Hnames).
  - exact sample_selection.
  - exact (sample_input data).
  - exact sample_not_an_output.
  - exact (sample_ready data).
  - reflexivity.
  - split; [reflexivity|]. unfold other. cbn [dirs]. rewrite elem_of_singleton. discriminate.
  - intros i H. unfold outfile in H. discriminate H.
  - unfold other. split; [left; cbn [dirs]; by apply elem_of_singleton|].
    intros i. cbn [dirs]. rewrite elem_of_singleton. apply outfile_ne_pngs.
  - split; [exact Hend|]. split; [exact Hout|]. split; [exact Hf1|].
    split; [exact Hf2|exact Hnames].
Defined.


(** * Further properties of the scan *)

(** ** Occurrences of the signature do not overlap *)

Lemma signature_lookup data i k :
  take 8 (drop i data) = PNG_SIGNATURE → k < 8 → data !! (i + k) = PNG_SIGNATURE !! k.
Proof.
  intros Hs Hk. by rewrite <- Hs, lookup_take_lt, lookup_drop.
Qed.

Lemma signature_apart data i j :
  take 8 (drop i data) = PNG_SIGNATURE → take 8 (drop j data) = PNG_SIGNATURE →
  i < j → i + 8 ≤ j.
Proof.
  intros Hi Hj Hlt. destruct (decide (i + 8 ≤ j)) as [|Hn]; [done|exfalso].
  pose proof (signature_lookup data j 0 Hj ltac:(lia)) as H0.
  pose proof (signature_lookup data i (j - i) Hi ltac:(lia)) as Hk.
  replace (i + (j - i)) with (j + 0) in Hk by lia. rewrite H0 in Hk.
  assert (j - i = 1 ∨ j - i = 2 ∨ j - i = 3 ∨ j - i = 4 ∨ j - i = 5
          ∨ j - i = 6 ∨ j - i = 7) as Hc by lia.
  destruct Hc as [E|[E|[E|[E|[E|[E|E]]]]]]; rewrite E in Hk; discriminate Hk.
Qed.

Lemma sorted_apart_length (l : list nat) lo n :
  StronglySorted lt l →
  (∀ x, x ∈ l → lo ≤ x ∧ x + 8 ≤ n) →
  (∀ x y, x ∈ l → y ∈ l → x < y → x + 8 ≤ y) →
  lo + 8 * length l ≤ n `max` lo.
Proof.
  intros Hs. revert lo. induction Hs as [|x l Hl IH Hx]; intros lo Hb Hgap.
  - simpl. lia.
  - assert (lo ≤ x ∧ x + 8 ≤ n) as [? ?] by (apply Hb; by left).
    specialize (IH (x + 8)). cbn [length].
    assert (x + 8 + 8 * length l ≤ n `max` (x + 8)); [|lia].
    apply IH.
    + intros y Hy. split; [|apply Hb; by right].
      apply Hgap; [by left|by right|]. rewrite Forall_forall in Hx. by apply Hx.
    + intros y z Hy Hz. apply Hgap; by right.
Qed.

(** X1.  Two occurrences of the signature are at least 8 bytes apart, so the
    byte ranges of two matches' signatures never overlap, and a file of [n]
    bytes has at most [n / 8] matches (and as many output files). *)
Theorem X1_matches_apart (data : bytes) :
  (∀ i j, i ∈ matches data → j ∈ matches data → i < j → i + 8 ≤ j)
  ∧ 8 * length (matches data) ≤ length data.
Proof.
  assert (∀ i j, i ∈ matches data → j ∈ matches data → i < j → i + 8 ≤ j) as Hgap.
  { intros i j Hi Hj. apply matches_take in Hi, Hj. by apply (signature_apart data). }
  split; [done|].
  pose proof (sorted_apart_length (matches data) 0 (length data)
                (matches_sorted data)) as H.
  rewrite Nat.max_0_r in H. apply H; [|done].
  intros x Hx. split; [lia|]. apply matches_spec in Hx. by apply signature_at_lt.
Qed.

(** ** What an output file looks like *)

Lemma read_n_all_N {A} (n : N) (l : list A) :
  (N.of_nat (length l) ≤ n)%N → read_n n l = l.
Proof. intros H. apply read_n_all. lia. Qed.

Lemma png_data_signature data i :
  take 8 (drop i data) = PNG_SIGNATURE → take 8 (png_data data i) = PNG_SIGNATURE.
Proof.
  intros Hs. rewrite png_data_take, take_take.
  by replace (8 `min` (N.to_nat (png_size data i) + 8)) with 8 by lia.
Qed.

Lemma png_data_length data i :
  take 8 (drop i data) = PNG_SIGNATURE →
  8 ≤ length (png_data data i) ≤ length data - i
  ∧ (N.of_nat (length (png_data data i)) ≤ png_size data i + 8)%N.
Proof.
  intros Hs. apply signature_at_spec, signature_at_lt in Hs.
  unfold png_data. rewrite read_n_length, length_drop. lia.
Qed.

(** X2.  The file written for a match begins with the 8 bytes of the
    signature; it has at least 8 bytes, at most the bytes the input has from
    the offset on, and at most [png_size + 8] bytes, hence fewer than
    [2^32 + 8]. *)
Theorem X2_output_shape argv input_lines f p pre (data : bytes) (i : nat) :
  selection argv input_lines = Some (p, pre) →
  input_file f p data → not_an_output p → output_ready f →
  take 8 (drop i data) = PNG_SIGNATURE →
  ∃ d, files (run argv input_lines f).2 !! outfile i = Some d
       ∧ take 8 d = PNG_SIGNATURE
       ∧ 8 ≤ length d ≤ length data - i
       ∧ (N.of_nat (length d) ≤ png_size data i + 8)%N
       ∧ (N.of_nat (length d) < 2 ^ 32 + 8)%N.
Proof.
  intros Hsel Hin Hp Hr Hs. exists (png_data data i).
  rewrite (run_scan _ _ _ _ _ _ Hsel Hin Hp Hr). cbn [snd].
  split; [by apply files_foldl_hit, matches_take|].
  split; [by apply png_data_signature|].
  destruct (png_data_length data i Hs) as [Hlen HN].
  split; [done|]. split; [done|]. pose proof (png_size_bound data i). lia.
Qed.

Lemma X2_output_shape_witness :
  ∃ d, files (run sample_argv [] (sample_fs sample_truncated)).2 !! outfile 1 = Some d
       ∧ take 8 d = PNG_SIGNATURE
       ∧ 8 ≤ length d ≤ length sample_truncated - 1
       ∧ (N.of_nat (length d) ≤ png_size sample_truncated 1 + 8)%N
       ∧ (N.of_nat (length d) < 2 ^ 32 + 8)%N.
Proof.
  apply (X2_output_shape sample_argv [] (sample_fs sample_truncated) "a.bin"
           ["Selecting file...a.bin"] sample_truncated 1).
  - exact sample_selection.
  - exact (sample_input sample_truncated).
  - exact sample_not_an_output.
  - exact (sample_ready sample_truncated).
  - reflexivity.
Defined.

(** ** What the run leaves alone *)

(** X3.  The run does not change the input file, nor any file whose name is
    not that of a match's output; it keeps every directory, adds at most
    [pngs], and does so exactly when there is a match. *)
Theorem X3_other_files_kept argv input_lines f p pre (data : bytes) :
  selection argv input_lines = Some (p, pre) →
  input_file f p data → not_an_output p → output_ready f →
  files (run argv input_lines f).2 !! p = Some data
  ∧ (∀ name, (∀ i, i ∈ matches data → name ≠ outfile i) →
             files (run argv input_lines f).2 !! name = files f !! name)
  ∧ dirs (run argv input_lines f).2
    = (if matches data is [] then dirs f else {["pngs"]} ∪ dirs f)
  ∧ mkdir_fault (run argv input_lines f).2 = mkdir_fault f.
Proof.
  intros Hsel Hin Hp Hr.
  rewrite (run_scan _ _ _ _ _ _ Hsel Hin Hp Hr). cbn [snd].
  split; [|split; [|split]].
  - rewrite files_foldl_other by (intros i _; apply Hp). apply Hin.
  - intros name Hname. by apply files_foldl_other.
  - apply dirs_foldl.
  - apply mkdir_fault_foldl.
Qed.

Lemma X3_other_files_kept_witness :
  let data := sample_two in
  let other := mkFS {["b.bin" := data; "pngs/7.png" := [x00]]} {["pngs"]} None in
  let r := run ["afthumbs.py"; "b.bin"] [] other in
  files r.2 !! "b.bin" = Some data
  ∧ files r.2 !! "pngs/7.png" = Some [x00]
  ∧ dirs r.2 = {["pngs"]} ∪ dirs other
  ∧ mkdir_fault r.2 = None.
Proof.
  intros data other.
  destruct (X3_other_files_kept ["afthumbs.py"; "b.bin"] [] other "b.bin"
              ["Selecting file...b.bin"] data)
    as (Hinput & Hother & Hdirs & Hfault).
  - reflexivity.
  - split; [reflexivity|]. unfold other. cbn [dirs]. rewrite elem_of_singleton.
    discriminate.
  - intros i H. unfold outfile in H. discriminate H.
  - unfold other. split; [left; cbn [dirs]; by apply elem_of_singleton|].
    intros i. cbn [dirs]. rewrite elem_of_singleton. apply outfile_ne_pngs.
  - split; [exact Hinput|]. split; [|split; [|exact Hfault]].
    + rewrite (Hother "pngs/7.png"); [reflexivity|].
      intros i Hi. unfold data in Hi. rewrite sample_two_matches in Hi.
      apply elem_of_cons in Hi as [->|Hi]; [discriminate|].
      apply list_elem_of_singleton in Hi as ->. discriminate.
    + rewrite Hdirs. unfold data. by rewrite sample_two_matches.
Defined.

(** ** A genuine PNG stream *)

(** X4.  In a PNG stream the signature is followed by the length of the IHDR
    chunk, 13, in big-endian order: 00 00 00 0D.  Read in little-endian order
    this is 218103808, so unless at least 218103816 bytes follow the start of
    the signature, the file written holds everything from the signature to
    the end of the input. *)
Theorem X4_ihdr_length argv input_lines f p pre (data : bytes) (i : nat) :
  selection argv input_lines = Some (p, pre) →
  input_file f p data → not_an_output p → output_ready f →
  take 8 (drop i data) = PNG_SIGNATURE →
  take 4 (drop (i + 8) data) = [x00; x00; x00; x0d] →
  png_size data i = 218103808%N
  ∧ ((N.of_nat (length data) < N.of_nat i + 218103816)%N →
     files (run argv input_lines f).2 !! outfile i = Some (drop i data)).
Proof.
  intros Hsel Hin Hp Hr Hs Hlen.
  assert (png_size data i = 218103808%N) as Hsize.
  { unfold png_size. rewrite read_n_take. change (N.to_nat 4) with 4.
    rewrite Hlen. reflexivity. }
  split; [done|]. intros Hshort.
  rewrite (run_scan _ _ _ _ _ _ Hsel Hin Hp Hr). cbn [snd].
  rewrite files_foldl_hit by (by apply matches_take). f_equal.
  unfold png_data. rewrite Hsize. apply read_n_all_N. rewrite length_drop. lia.
Qed.

Lemma X4_ihdr_length_witness :
  png_size sample_png 1 = 218103808%N
  ∧ files (run sample_argv [] (sample_fs sample_png)).2 !! outfile 1
    = Some (drop 1 sample_png).
Proof.
  destruct (X4_ihdr_length sample_argv [] (sample_fs sample_png) "a.bin"
              ["Selecting file...a.bin"] sample_png 1) as [Hsize Hfile].
  - exact sample_selection.
  - exact (sample_input sample_png).
  - exact sample_not_an_output.
  - exact (sample_ready sample_png).
  - reflexivity.
  - reflexivity.
  - split; [exact Hsize|]. apply Hfile. by vm_compute.
Defined.

(** ** Runs that end before the scan *)

Lemma run_select argv input_lines f p pre :
  selection argv input_lines = Some (p, pre) →
  ∃ sin', run argv input_lines f =
    (let '(r, st) :=
       (count ← scan_file p;
        if bool_decide (count = 0) then print "No png signatures found?" else mret tt)
         (mkState f sin' pre 0) in
     (r, stdout st, fs st)).
Proof.
  intros Hsel.
  destruct (select_file_selection argv p pre (mkState f input_lines [] 0) Hsel)
    as (argv' & sin' & Hp & Hsf).
  exists sin'. unfold run, main. erewrite bind_inr by exact Hsf.
  unfold index. rewrite Hp. by erewrite bind_inr by reflexivity.
Qed.



(** X6.  A run settles on no file name in exactly three cases: an empty
    argument list, no argument and an empty line at the prompt, no argument
    and the end of standard input at the prompt.  It then ends with
    [IndexError], [SystemExit] or [EOFError], with exit status 1, having
    printed at most the prompt, without touching the file system; an end of
    input at the prompt is not reported with the message of [sys.exit]. *)
Theorem X6_no_selection argv input_lines f :
  selection argv input_lines = None →
  (run argv input_lines f).2 = f
  ∧ exit_status (run argv input_lines f).1.1 = 1%Z
  ∧ ((argv = [] ∧ (run argv input_lines f).1 = (inl IndexError, []))
     ∨ (∃ script rest, argv = [script] ∧ input_lines = "" :: rest
        ∧ (run argv input_lines f).1
          = (inl (SystemExit "No Args or filename given, exiting!"),
             ["Enter a Affinity filename to scan or press ENTER to skip: "]))
     ∨ (∃ script, argv = [script] ∧ input_lines = []
        ∧ (run argv input_lines f).1
          = (inl EOFError,
             ["Enter a Affinity filename to scan or press ENTER to skip: "]))).
Proof.
  intros Hsel. destruct argv as [|script [|a argv]]; [| |done].
  - split; [done|]. split; [done|]. by left.
  - destruct input_lines as [|filename rest].
    + split; [done|]. split; [done|]. right. right. by exists script.
    + unfold selection in Hsel. case_bool_decide as Hf; [subst filename|done].
      split; [done|]. split; [done|]. right. left. by exists script, rest.
Qed.

Lemma X6_no_selection_witness :
  (run ["afthumbs.py"] [] (sample_fs sample_single)).2 = sample_fs sample_single
  ∧ exit_status (run ["afthumbs.py"] [] (sample_fs sample_single)).1.1 = 1%Z
  ∧ (run ["afthumbs.py"] [] (sample_fs sample_single)).1
    = (inl EOFError, ["Enter a Affinity filename to scan or press ENTER to skip: "]).
Proof.
  destruct (X6_no_selection ["afthumbs.py"] [] (sample_fs sample_single))
    as (Hfs & Hexit & Hcases); [reflexivity|].
  split; [exact Hfs|]. split; [exact Hexit|]. reflexivity.
Defined.

(** ** A regular file named [pngs] *)

Lemma matches_first data i0 :
  take 8 (drop i0 data) = PNG_SIGNATURE →
  (∀ j, j < i0 → take 8 (drop j data) ≠ PNG_SIGNATURE) →
  ∃ rest, matches data = i0 :: rest.
Proof.
  intros Hs Hfirst. pose proof (matches_sorted data) as Hsorted.
  assert (i0 ∈ matches data) as Hin by (by apply matches_take).
  destruct (matches data) as [|h rest] eqn:E; [by apply elem_of_nil in Hin|].
  exists rest. f_equal. apply elem_of_cons in Hin as [->|Hin]; [done|exfalso].
  apply StronglySorted_inv in Hsorted as [_ Hh]. rewrite Forall_forall in Hh.
  apply (Hfirst h (Hh _ Hin)). apply matches_take. rewrite E. by left.
Qed.

Lemma mkdir_pngs_exists st :
  "pngs" ∈ dirs (fs st) ∨ "pngs" ∈ dom (files (fs st)) →
  try_except (os_mkdir "pngs")
    (λ e, match e with
          | OSError errno => if bool_decide (errno ≠ EEXIST) then raise e else mret tt
          | _ => raise e
          end) st
  = (inr tt, st).
Proof.
  intros Hex. unfold try_except, os_mkdir.
  assert (bool_decide ("pngs" ∈ dirs (fs st))
          || bool_decide ("pngs" ∈ dom (files (fs st))) = true) as ->; [|done].
  apply orb_true_iff. by rewrite !bool_decide_eq_true.
Qed.

Lemma save_notdir i d st :
  "pngs" ∉ dirs (fs st) → "pngs" ∈ dom (files (fs st)) →
  (open_wb (outfile i);; write (outfile i) d) st = (inl (OSError ENOTDIR), st).
Proof.
  intros Hd Hf. apply bind_inl. unfold open_wb, dir_exists.
  by rewrite dirname_outfile, (bool_decide_eq_false_2 _ Hd), (bool_decide_eq_true_2 _ Hf).
Qed.

Lemma scan_at_notdir p data i c st :
  contents p st = data → signature_at data i = true →
  "pngs" ∉ dirs (fs st) → "pngs" ∈ dom (files (fs st)) →
  scan_at p i c st =
    (inl (OSError ENOTDIR),
     mkState (fs st) (stdin st)
       (stdout st ++ ["Found PNG Signature #" +:+ str (c + 1) +:+ " at " +:+ str i;
                      "Writing PNG to pngs/ directory"])
       (i + length (png_data data i))).
Proof.
  intros Hdata Hs Hd Hf. unfold scan_at.
  rewrite (scan_at_hit_prefix p data i c st Hdata
             (λ png_size png_data, _;; _;; _;; mret (c + 1))) by done.
  erewrite bind_inr by (apply mkdir_pngs_exists; by right).
  change ("pngs/" +:+ str i +:+ ".png") with (outfile i).
  erewrite bind_inl; [reflexivity|]. by apply save_notdir.
Qed.

Lemma for_range_notdir p data range c st i0 rest :
  contents p st = data → hits data range = i0 :: rest →
  "pngs" ∉ dirs (fs st) → "pngs" ∈ dom (files (fs st)) →
  ∃ q, for_range (scan_at p) range c st =
       (inl (OSError ENOTDIR),
        mkState (fs st) (stdin st)
          (stdout st ++ ["Found PNG Signature #" +:+ str (c + 1) +:+ " at " +:+ str i0;
                         "Writing PNG to pngs/ directory"]) q).
Proof.
  intros Hd. revert st Hd. induction range as [|i range IH]; intros st Hd Hh Hdir Hf.
  - done.
  - unfold hits in Hh. rewrite filter_cons in Hh.
    destruct (signature_at data i) eqn:Hs.
    + rewrite decide_True in Hh by done. injection Hh as -> _. cbn [for_range].
      erewrite bind_inl by (by eapply scan_at_notdir). by eexists.
    + rewrite decide_False in Hh by done. cbn [for_range].
      erewrite bind_inr by (by apply scan_at_miss).
      by apply (IH (set_pos _ st)).
Qed.

(** X7.  When [pngs] exists but is a regular file, [os.mkdir] fails with
    EEXIST as for a directory and the script goes on; the run then ends at
    the first match with the error of [open], ENOTDIR, after announcing the
    match, with exit status 1 and nothing written. *)
Theorem X7_pngs_not_a_directory argv input_lines f p pre (data : bytes) (i0 : nat) :
  selection argv input_lines = Some (p, pre) →
  input_file f p data →
  "pngs" ∉ dirs f → "pngs" ∈ dom (files f) →
  take 8 (drop i0 data) = PNG_SIGNATURE →
  (∀ j, j < i0 → take 8 (drop j data) ≠ PNG_SIGNATURE) →
  run argv input_lines f =
    (inl (OSError ENOTDIR),
     pre ++ heading p data
       ++ ["Found PNG Signature #" +:+ str 1 +:+ " at " +:+ str i0;
           "Writing PNG to pngs/ directory"],
     f)
  ∧ exit_status (run argv input_lines f).1.1 = 1%Z.
Proof.
  intros Hsel Hin Hd Hf Hs Hfirst.
  destruct (matches_first data i0 Hs Hfirst) as [rest Hm].
  assert (run argv input_lines f =
    (inl (OSError ENOTDIR),
     pre ++ heading p data
       ++ ["Found PNG Signature #" +:+ str 1 +:+ " at " +:+ str i0;
           "Writing PNG to pngs/ directory"], f)) as ->; [|done].
  unfold run.
  destruct (main_scan_file _ _ _ _ _ _ Hsel Hin (mkState f input_lines [] 0))
    as [sin' Hmain]; [done..|].
  rewrite Hmain. clear Hmain.
  edestruct (for_range_notdir p data (seq 0 (length data)) 0) as [q Hq];
    [by apply contents_input_file|exact Hm|exact Hd|exact Hf|].
  rewrite (bind_inl _ _ _ _ _ Hq). simpl. by rewrite <- !app_assoc.
Qed.

Lemma X7_pngs_not_a_directory_witness :
  let f := mkFS {["a.bin" := sample_single; "pngs" := []]} ∅ None in
  run sample_argv [] f =
    (inl (OSError ENOTDIR),
     ["Selecting file...a.bin"] ++ heading "a.bin" sample_single
       ++ ["Found PNG Signature #" +:+ str 1 +:+ " at " +:+ str 2;
           "Writing PNG to pngs/ directory"],
     f)
  ∧ exit_status (run sample_argv [] f).1.1 = 1%Z.
Proof.
  intros f.
  apply (X7_pngs_not_a_directory sample_argv [] f "a.bin" ["Selecting file...a.bin"]
           sample_single 2).
  - exact sample_selection.
  - split; [reflexivity|apply not_elem_of_empty].
  - apply not_elem_of_empty.
  - apply elem_of_dom. by exists [].
  - reflexivity.
  - intros j Hj Hs. apply (matches_only _ _ _ sample_single_matches) in Hs.
    apply list_elem_of_singleton in Hs. lia.
Defined.

(** ** The scan and the console *)

Lemma emit_reframe sin sout n s st :
  n ≤ length (stdout st) →
  emit s (reframe sin sout n st) = reframe sin sout n (emit s st).
Proof.
  intros Hn. unfold emit, reframe. cbn [fs stdin stdout pos].
  by rewrite drop_app_le, app_assoc by done.
Qed.

Lemma framed_ret {A} (x : A) : framed (mret x).
Proof. by intros sin sout n st Hn. Qed.

Lemma framed_raise {A} e : framed (raise e : M A).
Proof. by intros sin sout n st Hn. Qed.

Lemma framed_bind {A B} (m : M A) (k : A → M B) :
  framed m → (∀ x, framed (k x)) → framed (m ≫= k).
Proof.
  intros Hm Hk sin sout n st Hn. unfold mbind, M_bind.
  destruct (Hm sin sout n st Hn) as [-> Hn'].
  destruct (m st) as [[e|x] st']; cbn [fst snd] in *; [done|].
  by apply Hk.
Qed.

Lemma framed_try {A} (m : M A) (h : exn → M A) :
  framed m → (∀ e, framed (h e)) → framed (try_except m h).
Proof.
  intros Hm Hh sin sout n st Hn. unfold try_except.
  destruct (Hm sin sout n st Hn) as [-> Hn'].
  destruct (m st) as [[e|x] st']; cbn [fst snd] in *; [|done].
  by apply Hh.
Qed.

Lemma framed_print s : framed (print s).
Proof.
  intros sin sout n st Hn. unfold print. cbn [fst snd].
  rewrite emit_reframe by done. split; [done|].
  unfold emit. cbn [stdout]. rewrite length_app. lia.
Qed.

Lemma framed_seek i : framed (seek i).
Proof. by intros sin sout n st Hn. Qed.

Lemma framed_seek_end p : framed (seek_end p).
Proof. by intros sin sout n st Hn. Qed.

Lemma framed_tell : framed tell.
Proof. by intros sin sout n st Hn. Qed.

Lemma framed_read p k : framed (read p k).
Proof. by intros sin sout n st Hn. Qed.

Lemma framed_write p d : framed (write p d).
Proof. by intros sin sout n st Hn. Qed.

Lemma framed_os_mkdir p : framed (os_mkdir p).
Proof.
  intros sin sout n st Hn. unfold os_mkdir. cbn [fs reframe].
  destruct (_ || _); [done|]. by destruct (mkdir_fault (fs st)).
Qed.

Lemma framed_open_rb p : framed (open_rb p).
Proof.
  intros sin sout n st Hn. unfold open_rb. cbn [fs reframe].
  destruct (bool_decide _); [done|]. by destruct (files (fs st) !! p).
Qed.

Lemma framed_open_wb p : framed (open_wb p).
Proof.
  intros sin sout n st Hn. unfold open_wb. cbn [fs reframe].
  destruct (dir_exists (fs st) p); [done|]. by destruct (bool_decide _).
Qed.

Lemma framed_scan_at p i c : framed (scan_at p i c).
Proof.
  unfold scan_at.
  apply framed_bind; [apply framed_seek|intros _].
  apply framed_bind; [apply framed_read|intros eight_bytes].
  case_bool_decide; [|apply framed_ret].
  apply framed_bind; [apply framed_print|intros _].
  apply framed_bind; [apply framed_read|intros png_size_bytes].
  apply framed_bind; [apply framed_seek|intros _].
  apply framed_bind; [apply framed_read|intros png_data].
  apply framed_bind; [apply framed_print|intros _].
  apply framed_bind.
  { apply framed_try; [apply framed_os_mkdir|].
    intros [msg|errno| |]; try apply framed_raise.
    case_bool_decide; [apply framed_raise|apply framed_ret]. }
  intros _. apply framed_bind.
  { apply framed_bind; [apply framed_open_wb|intros _; apply framed_write]. }
  intros _. apply framed_bind; [apply framed_print|intros _; apply framed_ret].
Qed.

Lemma framed_for_range p range c : framed (for_range (scan_at p) range c).
Proof.
  revert c. induction range as [|i range IH]; intros c; cbn [for_range].
  - apply framed_ret.
  - apply framed_bind; [apply framed_scan_at|done].
Qed.

Lemma framed_scan_file p : framed (scan_file p).
Proof.
  unfold scan_file.
  apply framed_bind; [apply framed_open_rb|intros _].
  apply framed_bind; [apply framed_print|intros _].
  apply framed_bind; [apply framed_seek_end|intros _].
  apply framed_bind; [apply framed_tell|intros num_bytes].
  apply framed_bind; [apply framed_print|intros _].
  apply framed_bind; [apply framed_print|intros _].
  apply framed_for_range.
Qed.

Lemma framed_scan_and_close p :
  framed (count ← scan_file p;
          if bool_decide (count = 0) then print "No png signatures found?" else mret tt).
Proof.
  apply framed_bind; [apply framed_scan_file|intros count].
  case_bool_decide; [apply framed_print|apply framed_ret].
Qed.

(** X8.  Two runs on the same file system that settle on the same file name,
    whether it was given as an argument or typed at the prompt, end the same
    way and leave the same file system, and what they print differs in the
    lines of the selection only.  This holds in every environment, also when
    the run fails: once the name is chosen, the script reads no input and
    does not depend on what it printed. *)
Theorem X8_same_name_same_scan argv1 input_lines1 argv2 input_lines2 f p pre1 pre2 :
  selection argv1 input_lines1 = Some (p, pre1) →
  selection argv2 input_lines2 = Some (p, pre2) →
  (run argv2 input_lines2 f).1.1 = (run argv1 input_lines1 f).1.1
  ∧ (run argv2 input_lines2 f).2 = (run argv1 input_lines1 f).2
  ∧ (run argv2 input_lines2 f).1.2
    = pre2 ++ drop (length pre1) (run argv1 input_lines1 f).1.2.
Proof.
  intros Hsel1 Hsel2.
  destruct (run_select _ _ f _ _ Hsel1) as [sin1 ->].
  destruct (run_select _ _ f _ _ Hsel2) as [sin2 ->].
  set (m := _ ≫= _). set (st1 := mkState f sin1 pre1 0).
  assert (mkState f sin2 pre2 0 = reframe sin2 pre2 (length pre1) st1) as ->.
  { unfold reframe, st1. cbn [fs stdout pos]. by rewrite drop_all, app_nil_r. }
  destruct (framed_scan_and_close p sin2 pre2 (length pre1) st1) as [Hm _]; [done|].
  fold m in Hm. rewrite Hm. by destruct (m st1) as [r st].
Qed.

Lemma X8_same_name_same_scan_witness :
  let f := sample_fs sample_single in
  (run ["afthumbs.py"] ["a.bin"; "more"] f).1.1 = (run sample_argv [] f).1.1
  ∧ (run ["afthumbs.py"] ["a.bin"; "more"] f).2 = (run sample_argv [] f).2
  ∧ (run ["afthumbs.py"] ["a.bin"; "more"] f).1.2
    = ["Enter a Affinity filename to scan or press ENTER to skip: ";
       "Selecting file... a.bin"]
      ++ drop (length ["Selecting file...a.bin"]) (run sample_argv [] f).1.2.
Proof.
  intros f.
  apply (X8_same_name_same_scan sample_argv [] ["afthumbs.py"] ["a.bin"; "more"] f
           "a.bin").
  - exact sample_selection.
  - reflexivity.
Defined.

(** X9.  Arguments after the first are ignored, and with an argument given
    standard input is not read: the run is the one with that argument alone
    and an empty standard input, in every environment. *)
Theorem X9_extra_arguments_ignored (script p : string) (extra input_lines : list string)
    (f : FS) :
  run (script :: p :: extra) input_lines f = run [script; p] [] f.
Proof.
  set (pre := ["Selecting file..." +:+ p]).
  destruct (run_select (script :: p :: extra) input_lines f p pre) as [sin1 ->]; [done|].
  destruct (run_select [script; p] [] f p pre) as [sin2 ->]; [done|].
  set (m := _ ≫= _). set (st2 := mkState f sin2 pre 0).
  assert (mkState f sin1 pre 0 = reframe sin1 pre (length pre) st2) as -> by done.
  destruct (framed_scan_and_close p sin1 pre (length pre) st2) as [Hm Hlen]; [done|].
  fold m in Hm, Hlen. rewrite Hm.
  destruct (framed_scan_and_close p sin2 pre (length pre) st2) as [Hself _]; [done|].
  fold m in Hself.
  assert (reframe sin2 pre (length pre) st2 = st2) as Hst2 by done.
  rewrite Hst2 in Hself.
  destruct (m st2) as [r st]. cbn [fst snd] in *.
  injection Hself as Hst. rewrite Hst at 2 3. done.
Qed.

(** ** The length field as a number *)

Lemma from_bytes_little_inj (bs cs : bytes) :
  length bs = length cs → from_bytes_little bs = from_bytes_little cs → bs = cs.
Proof.
  revert cs. induction bs as [|b bs IH]; intros [|c cs] Hlen Heq; try done.
  cbn [from_bytes_little] in Heq.
  pose proof (Byte.to_N_bounded b). pose proof (Byte.to_N_bounded c).
  assert (Byte.to_N b = Byte.to_N c ∧ from_bytes_little bs = from_bytes_little cs)
    as [Hb Hrest] by lia.
  f_equal.
  - apply (f_equal Byte.of_N) in Hb. rewrite !Byte.of_to_N in Hb. by injection Hb.
  - apply IH; [|done]. simpl in Hlen. lia.
Qed.

Lemma from_bytes_little_app (bs cs : bytes) :
  from_bytes_little (bs ++ cs)
  = (from_bytes_little bs + 256 ^ N.of_nat (length bs) * from_bytes_little cs)%N.
Proof.
  induction bs as [|b bs IH]; cbn [app from_bytes_little length].
  - change (256 ^ N.of_nat 0)%N with 1%N. lia.
  - rewrite IH, Nat2N.inj_succ, N.pow_succ_r'. lia.
Qed.

(** X10.  Reading a number in little-endian order is the inverse of writing
    it on 4 bytes: every number below [2^32] is read back from its 4 bytes,
    every 4-byte field is the 4 bytes of the number read from it, so two
    different fields give different lengths; and bytes after the first ones
    weigh [256 ^ k]: a field cut short reads as if padded with zero bytes. *)
Theorem X10_length_field_round_trip :
  (∀ n, (n < 2 ^ 32)%N → from_bytes_little (to_bytes_little4 n) = n)
  ∧ (∀ bs, length bs = 4 → to_bytes_little4 (from_bytes_little bs) = bs)
  ∧ (∀ bs k, from_bytes_little (bs ++ repeat x00 k) = from_bytes_little bs).
Proof.
  split; [exact from_to_bytes_little4|]. split.
  - intros bs Hlen. apply from_bytes_little_inj; [by rewrite to_bytes_little4_length|].
    apply from_to_bytes_little4.
    pose proof (from_bytes_little_bound bs) as H. rewrite Hlen in H. exact H.
  - intros bs k. rewrite from_bytes_little_app.
    assert (from_bytes_little (repeat x00 k) = 0%N) as ->; [|lia].
    induction k as [|k IH]; cbn [repeat from_bytes_little]; [done|].
    rewrite IH. done.
Qed.

Lemma X10_length_field_round_trip_witness :
  from_bytes_little (to_bytes_little4 218103808) = 218103808%N
  ∧ to_bytes_little4 (from_bytes_little [x00; x00; x00; x0d]) = [x00; x00; x00; x0d]
  ∧ from_bytes_little ([x05] ++ repeat x00 3) = from_bytes_little [x05].
Proof.
  destruct X10_length_field_round_trip as (Hto & Hfrom & Hpad).
  split; [apply Hto; reflexivity|]. split; [apply Hfrom; reflexivity|apply Hpad].
Defined.

Lemma X1_matches_apart_witness :
  0 + 8 ≤ 13 ∧ 8 * length (matches sample_two) ≤ length sample_two.
Proof.
  destruct (X1_matches_apart sample_two) as [Hgap Hcount].
  split; [|exact Hcount].
  apply Hgap; [rewrite sample_two_matches; by left
              |rewrite sample_two_matches; right; by left|lia].
Defined.

(** ** A failure in the middle of the scan *)

Lemma scan_at_hit_at p data i c st :
  contents p st = data → signature_at data i = true →
  dir_possible (fs st) → outfile i ∉ dirs (fs st) →
  scan_at p i c st =
    (inr (c + 1),
     mkState (extract data (fs st) i) (stdin st)
             (stdout st ++ report c [i]) (i + length (png_data data i))).
Proof.
  intros Hdata Hs Hdir Hout. unfold scan_at.
  rewrite (scan_at_hit_prefix p data i c st Hdata
             (λ png_size png_data, _;; _;; _;; mret (c + 1))) by done.
  erewrite bind_inr by (by apply mkdir_pngs_ready).
  change ("pngs/" +:+ str i +:+ ".png") with (outfile i).
  erewrite bind_inr; cycle 1.
  { apply save_ready; simpl; [set_solver|].
    pose proof (outfile_ne_pngs i). set_solver. }
  erewrite bind_inr by reflexivity.
  destruct st as [[fl ds mf] sin sout ps].
  unfold mret, M_ret, extract, emit, set_fs, with_dir. simpl.
  by rewrite <- !app_assoc.
Qed.

Lemma scan_at_isdir p data i c st :
  contents p st = data → signature_at data i = true →
  dir_possible (fs st) → outfile i ∈ dirs (fs st) →
  scan_at p i c st =
    (inl (OSError EISDIR),
     mkState (with_dir (fs st)) (stdin st)
       (stdout st ++ ["Found PNG Signature #" +:+ str (c + 1) +:+ " at " +:+ str i;
                      "Writing PNG to pngs/ directory"])
       (i + length (png_data data i))).
Proof.
  intros Hdata Hs Hdir Hout. unfold scan_at.
  rewrite (scan_at_hit_prefix p data i c st Hdata
             (λ png_size png_data, _;; _;; _;; mret (c + 1))) by done.
  erewrite bind_inr by (by apply mkdir_pngs_ready).
  change ("pngs/" +:+ str i +:+ ".png") with (outfile i).
  erewrite bind_inl; [reflexivity|]. apply bind_inl.
  unfold open_wb, dir_exists. rewrite dirname_outfile. cbn [fs set_fs with_dir dirs].
  rewrite (bool_decide_eq_true_2 ("pngs" ∈ _)) by set_solver.
  rewrite (bool_decide_eq_true_2 (outfile i ∈ _)) by set_solver. done.
Qed.

Lemma for_range_isdir p data range c st l1 j l2 :
  contents p st = data → not_an_output p →
  hits data range = l1 ++ j :: l2 →
  dir_possible (fs st) →
  (∀ i, i ∈ l1 → outfile i ∉ dirs (fs st)) → outfile j ∈ dirs (fs st) →
  ∃ q, for_range (scan_at p) range c st =
       (inl (OSError EISDIR),
        mkState (with_dir (foldl (extract data) (fs st) l1)) (stdin st)
          (stdout st ++ report c l1
             ++ ["Found PNG Signature #" +:+ str (c + length l1 + 1)
                   +:+ " at " +:+ str j;
                 "Writing PNG to pngs/ directory"]) q).
Proof.
  intros Hd Hp. revert c st l1 Hd.
  induction range as [|i range IH]; intros c st l1 Hd Hh Hdir Hl1 Hj.
  - by destruct l1.
  - unfold hits in Hh. rewrite filter_cons in Hh. fold (hits data range) in Hh.
    destruct (signature_at data i) eqn:Hs.
    + rewrite decide_True in Hh by done. cbn [for_range].
      destruct l1 as [|i' l1]; injection Hh as -> Hh.
      * erewrite bind_inl by (by eapply scan_at_isdir). eexists.
        cbn [foldl report length app]. by rewrite Nat.add_0_r.
      * rewrite (bind_inr _ _ _ _ _
                   (scan_at_hit_at p data i' c st Hd Hs Hdir (Hl1 i' ltac:(by left)))).
        edestruct (IH (c + 1)) as [q Hq]; [| exact Hh | | | |].
        -- rewrite contents_extract by apply Hp. exact Hd.
        -- left. cbn [fs extract dirs]. set_solver.
        -- intros k Hk. cbn [fs extract dirs]. pose proof (outfile_ne_pngs k).
           specialize (Hl1 k ltac:(by right)). set_solver.
        -- cbn [fs extract dirs]. set_solver.
        -- exists q. rewrite Hq. cbn [fs stdin stdout foldl report length].
           rewrite app_nil_r, <- !app_assoc.
           by replace (c + 1 + length l1 + 1) with (c + S (length l1) + 1) by lia.
    + rewrite decide_False in Hh by done. cbn [for_range].
      erewrite bind_inr by (by apply scan_at_miss).
      destruct (IH c (set_pos (i + length (read_n 8 (drop i data))) st) l1) as [q Hq];
        [done..|].
      exists q. by rewrite Hq.
Qed.

(** X11.  When the output of the match at offset [j] cannot be opened (a
    directory stands under its name), the run ends there with the error of
    [open]; the matches before [j] have been reported and their files stay
    written, the matches after [j] are neither reported nor extracted. *)
Theorem X11_failure_keeps_earlier_outputs
    argv input_lines f p pre (data : bytes) (l1 l2 : list nat) (j : nat) :
  selection argv input_lines = Some (p, pre) →
  input_file f p data → not_an_output p → dir_possible f →
  matches data = l1 ++ j :: l2 →
  (∀ i, i ∈ l1 → outfile i ∉ dirs f) → outfile j ∈ dirs f →
  run argv input_lines f =
    (inl (OSError EISDIR),
     pre ++ heading p data ++ report 0 l1
       ++ ["Found PNG Signature #" +:+ str (length l1 + 1) +:+ " at " +:+ str j;
           "Writing PNG to pngs/ directory"],
     with_dir (foldl (extract data) f l1))
  ∧ (∀ i, i ∈ l1 →
       files (run argv input_lines f).2 !! outfile i
       = Some (read_n (png_size data i + 8) (drop i data)))
  ∧ (∀ i, i ∈ l2 →
       files (run argv input_lines f).2 !! outfile i = files f !! outfile i).
Proof.
  intros Hsel Hin Hp Hdir Hm Hl1 Hj.
  assert (run argv input_lines f =
    (inl (OSError EISDIR),
     pre ++ heading p data ++ report 0 l1
       ++ ["Found PNG Signature #" +:+ str (length l1 + 1) +:+ " at " +:+ str j;
           "Writing PNG to pngs/ directory"],
     with_dir (foldl (extract data) f l1))) as ->.
  { unfold run.
    destruct (main_scan_file _ _ _ _ _ _ Hsel Hin (mkState f input_lines [] 0))
      as [sin' Hmain]; [done..|].
    rewrite Hmain. clear Hmain.
    edestruct (for_range_isdir p data (seq 0 (length data)) 0) as [q Hq];
      [by apply contents_input_file|exact Hp|exact Hm|exact Hdir|exact Hl1|exact Hj|].
    rewrite (bind_inl _ _ _ _ _ Hq). simpl. by rewrite <- !app_assoc. }
  split; [done|]. cbn [snd with_dir files]. split.
  - intros i Hi. by apply files_foldl_hit.
  - intros i Hi. apply files_foldl_other. intros k Hk Heq.
    apply (inj outfile) in Heq as ->.
    pose proof (matches_NoDup data) as Hnd. rewrite Hm in Hnd.
    apply NoDup_app in Hnd as (_ & Hdisj & _). apply (Hdisj k Hk). by right.
Qed.

Lemma X11_failure_keeps_earlier_outputs_witness :
  let data := sample_two in
  let f := mkFS {["a.bin" := data]} {["pngs/13.png"]} None in
  run sample_argv [] f =
    (inl (OSError EISDIR),
     ["Selecting file...a.bin"] ++ heading "a.bin" data ++ report 0 [0]
       ++ ["Found PNG Signature #" +:+ str (length [0] + 1) +:+ " at " +:+ str 13;
           "Writing PNG to pngs/ directory"],
     with_dir (foldl (extract data) f [0]))
  ∧ files (run sample_argv [] f).2 !! outfile 0
    = Some (read_n (png_size data 0 + 8) (drop 0 data)).
Proof.
  intros data f.
  destruct (X11_failure_keeps_earlier_outputs sample_argv [] f "a.bin"
              ["Selecting file...a.bin"] data [0] [] 13) as (Hrun & Hbefore & _).
  - exact sample_selection.
  - split; [reflexivity|]. unfold f. cbn [dirs]. rewrite elem_of_singleton. discriminate.
  - exact sample_not_an_output.
  - right. split; [|reflexivity]. unfold f. cbn [files].
    rewrite dom_singleton_L, elem_of_singleton. discriminate.
  - exact sample_two_matches.
  - intros i Hi. apply list_elem_of_singleton in Hi as ->.
    unfold f. cbn [dirs]. rewrite elem_of_singleton.
    intros H. vm_compute in H. discriminate H.
  - unfold f. cbn [dirs]. apply elem_of_singleton. reflexivity.
  - split; [exact Hrun|]. apply Hbefore. by left.
Defined.

(** ** The numbering of the matches *)

Lemma report_length c l : length (report c l) = 3 * length l.
Proof.
  revert c. induction l as [|i l IH]; intros c; cbn [report length app]; [done|].
  rewrite IH. lia.
Qed.

Lemma report_lookup c l k i :
  l !! k = Some i →
  report c l !! (3 * k)
  = Some ("Found PNG Signature #" +:+ str (c + k + 1) +:+ " at " +:+ str i).
Proof.
  revert c k. induction l as [|i' l IH]; intros c k Hk; [done|].
  destruct k as [|k]; cbn [report app].
  - injection Hk as ->. by rewrite Nat.add_0_r.
  - replace (3 * S k) with (S (S (S (3 * k)))) by lia. cbn [lookup list_lookup].
    etrans; [exact (IH (c + 1) k Hk)|]. do 3 f_equal. f_equal. lia.
Qed.

(** X12.  The matches are numbered from 1 in the order of their offsets: the
    run prints the selection, three lines of heading and three lines per
    match, the first of them with the number and the offset of the match,
    and one closing line when there is no match. *)
Theorem X12_numbering argv input_lines f p pre (data : bytes) :
  selection argv input_lines = Some (p, pre) →
  input_file f p data → not_an_output p → output_ready f →
  length (run argv input_lines f).1.2
  = length pre + 3 + 3 * length (matches data)
    + (if matches data is [] then 1 else 0)
  ∧ ∀ k i, matches data !! k = Some i →
           (run argv input_lines f).1.2 !! (length pre + 3 + 3 * k)
           = Some ("Found PNG Signature #" +:+ str (k + 1) +:+ " at " +:+ str i).
Proof.
  intros Hsel Hin Hp Hr.
  rewrite (run_scan _ _ _ _ _ _ Hsel Hin Hp Hr). cbn [fst snd]. unfold transcript. split.
  - rewrite !length_app, report_length. change (length (heading p data)) with 3.
    destruct (matches data); cbn [length].
    + rewrite bool_decide_eq_true_2 by done. cbn [length]. lia.
    + rewrite bool_decide_eq_false_2 by done. cbn [length]. lia.
  - intros k i Hk.
    rewrite lookup_app_r by lia.
    replace (length pre + 3 + 3 * k - length pre) with (3 + 3 * k) by lia.
    rewrite lookup_app_r by (change (length (heading p data)) with 3; lia).
    change (length (heading p data)) with 3.
    replace (3 + 3 * k - 3) with (3 * k) by lia.
    rewrite lookup_app_l.
    + by rewrite (report_lookup 0 _ k i Hk).
    + rewrite report_length. apply lookup_lt_Some in Hk. lia.
Qed.

Lemma X12_numbering_witness :
  let r := run sample_argv [] (sample_fs sample_two) in
  length r.1.2 = 1 + 3 + 3 * 2 + 0
  ∧ r.1.2 !! (1 + 3 + 3 * 1)
    = Some ("Found PNG Signature #" +:+ str (1 + 1) +:+ " at " +:+ str 13).
Proof.
  destruct (X12_numbering sample_argv [] (sample_fs sample_two) "a.bin"
              ["Selecting file...a.bin"] sample_two) as [Hlen Hline].
  - exact sample_selection.
  - exact (sample_input sample_two).
  - exact sample_not_an_output.
  - exact (sample_ready sample_two).
  - split; [|by apply (Hline 1 13)].
    rewrite Hlen, sample_two_matches. reflexivity.
Defined.

(** * Properties of rename_plans *)

(** ** Strings *)

Lemma substring_prefix_length k s :
  String.length (substring 0 k s) = k `min` String.length s.
Proof.
  revert k. induction s as [|a s IH]; intros [|k]; cbn [substring String.length]; try done.
  by rewrite IH.
Qed.

Lemma rfind_bounds c s : (-1 ≤ rfind c s < Z.of_nat (String.length s))%Z.
Proof.
  induction s as [|a s IH]; cbn [rfind String.length]; [lia|].
  destruct (Z.leb_spec 0 (rfind c s)); [lia|].
  destruct (Ascii.eqb a c); lia.
Qed.

Lemma rfind_ge c s k : String.get k s = Some c → (Z.of_nat k ≤ rfind c s)%Z.
Proof.
  revert k. induction s as [|a s IH]; intros k Hk; [done|].
  cbn [rfind]. destruct k as [|k]; cbn [String.get] in Hk.
  - injection Hk as ->. rewrite Ascii.eqb_refl.
    pose proof (rfind_bounds c s). destruct (Z.leb_spec 0 (rfind c s)); lia.
  - specialize (IH k Hk). destruct (Z.leb_spec 0 (rfind c s)); lia.
Qed.

Lemma endswith_md_get p :
  endswith p ".md" = true →
  3 ≤ String.length p ∧ String.get (String.length p - 3) p = Some "."%char.
Proof.
  unfold endswith. cbn [String.length]. intros H.
  apply andb_true_iff in H as [Hlen Heq].
  apply Nat.leb_le in Hlen. apply String.eqb_eq in Heq. split; [done|].
  pose proof (substring_correct1 p (String.length p - 3) 3 0 ltac:(lia)) as Hget.
  rewrite Heq in Hget. cbn [String.get Nat.add] in Hget. by rewrite <- Hget.
Qed.

Lemma splitext_root_length p :
  endswith p ".md" = true → String.length p ≤ String.length (splitext p).1 + 3.
Proof.
  intros Hmd. destruct (endswith_md_get p Hmd) as [Hlen Hdot].
  apply (rfind_ge "." p) in Hdot. pose proof (rfind_bounds "." p) as Hb.
  unfold splitext. destruct (_ <? _)%Z; [|cbn [fst]; lia].
  destruct (forallb _ _); cbn [fst]; [lia|].
  rewrite substring_prefix_length. lia.
Qed.

Lemma strip_plan_length s : String.length s ≤ String.length (strip_plan s) + 5.
Proof.
  unfold strip_plan.
  destruct s as [|c1 [|c2 [|c3 [|c4 rest]]]]; cbn [String.length]; try lia.
  destruct (String.eqb _ _); cbn [String.length]; [|lia].
  destruct rest as [|c rest]; cbn [String.length]; [lia|].
  destruct (Ascii.eqb c "-"); cbn [String.length]; lia.
Qed.

Lemma pretty_N_go_length x s : String.length s ≤ String.length (pretty_N_go x s).
Proof.
  revert s. induction (N.lt_wf_0 x) as [x _ IH]; intros s.
  assert (x = 0 ∨ 0 < x)%N as [->|Hx] by lia; [by rewrite pretty_N_go_0|].
  rewrite pretty_N_go_step by done.
  etrans; [|apply IH; by apply N.div_lt]. cbn [String.length]. lia.
Qed.

Lemma pretty_nat_length (n : nat) : 1 ≤ String.length (pretty n).
Proof.
  unfold pretty, pretty_nat, pretty, pretty_N. case_decide as Hn; [done|].
  rewrite pretty_N_go_step by lia.
  etrans; [|apply pretty_N_go_length]. cbn [String.length]. lia.
Qed.

Lemma pad2_length n : 1 ≤ String.length (pad2 n).
Proof.
  unfold pad2. destruct (n <? 10); [|apply pretty_nat_length].
  rewrite string_length_app. cbn [String.length]. lia.
Qed.

Lemma strftime_length t : 9 ≤ String.length (strftime t).
Proof.
  unfold strftime. rewrite !string_length_app.
  pose proof (pretty_nat_length (year t)). pose proof (pad2_length (month t)).
  pose proof (pad2_length (day t)). pose proof (pad2_length (hour t)).
  pose proof (pad2_length (minute t)).
  change (String.length "-") with 1. change (String.length "_") with 1.
  change (String.length ":") with 1. lia.
Qed.

Lemma new_filename_length (birthtime : LocalTime) (filename : string) :
  endswith filename ".md" = true →
  String.length filename + 5 ≤ String.length (new_filename birthtime filename).
Proof.
  intros Hmd. unfold new_filename. rewrite !string_length_app.
  pose proof (strftime_length birthtime).
  pose proof (strip_plan_length (splitext filename).1).
  pose proof (splitext_root_length filename Hmd).
  change (String.length "-") with 1. change (String.length ".md") with 3. lia.
Qed.

Lemma new_filename_ne (birthtime : LocalTime) (filename : string) :
  endswith filename ".md" = true → new_filename birthtime filename ≠ filename.
Proof.
  intros Hmd Heq. pose proof (new_filename_length birthtime filename Hmd) as Hlen.
  rewrite Heq in Hlen. lia.
Qed.

(** ** The new name is never the old one *)

(** X13.  The name computed for a file ending in [.md] is never the name the
    file has: the creation time put in front is longer than the PLAN prefix
    that is removed.  The branch that skips a file as already correct is
    therefore never taken; every [.md] file is renamed on every run, also
    one that a previous run has named. *)
Theorem X13_never_already_correct (birthtime : LocalTime) (filename : string) :
  endswith filename ".md" = true →
  new_filename birthtime filename ≠ filename
  ∧ String.length filename + 5 ≤ String.length (new_filename birthtime filename).
Proof.
  intros Hmd. split.
  - by apply new_filename_ne.
  - by apply new_filename_length.
Qed.

Lemma X13_never_already_correct_witness :
  new_filename sample_time "2026-01-29_09:00-sorting.md" ≠ "2026-01-29_09:00-sorting.md"
  ∧ String.length "2026-01-29_09:00-sorting.md" + 5
    ≤ String.length (new_filename sample_time "2026-01-29_09:00-sorting.md").
Proof.
  apply (X13_never_already_correct sample_time "2026-01-29_09:00-sorting.md").
  reflexivity.
Defined.

(** ** One file *)

Lemma rbind_inr {A B} (m : R A) (k : A → R B) d x d' :
  m d = (inr x, d') → (m ≫= k) d = k x d'.
Proof. unfold mbind, R_bind. by intros ->. Qed.

Lemma rbind_inl {A B} (m : R A) (k : A → R B) d e d' :
  m d = (inl e, d') → (m ≫= k) d = (inl e, d').
Proof. unfold mbind, R_bind. by intros ->. Qed.

Lemma string_app_assoc (s t u : string) : (s +:+ t) +:+ u = s +:+ (t +:+ u).
Proof.
  induction s as [|a s IH]; [done|].
  change (String a ((s +:+ t) +:+ u) = String a (s +:+ (t +:+ u))). by rewrite IH.
Qed.

Lemma substring_all s : substring 0 (String.length s) s = s.
Proof. induction s as [|a s IH]; cbn [substring String.length]; [done|]. by rewrite IH. Qed.

Lemma substring_app_suffix s t : substring (String.length s) (String.length t) (s +:+ t) = t.
Proof.
  induction s as [|a s IH]; [apply substring_all|].
  change (substring (String.length s) (String.length t) (s +:+ t) = t). exact IH.
Qed.

Lemma endswith_app s t : endswith (s +:+ t) t = true.
Proof.
  unfold endswith. rewrite string_length_app. apply andb_true_iff. split.
  - apply Nat.leb_le. lia.
  - replace (String.length s + String.length t - String.length t)
      with (String.length s) by lia.
    rewrite substring_app_suffix. apply String.eqb_refl.
Qed.

Lemma new_filename_md t name : endswith (new_filename t name) ".md" = true.
Proof.
  unfold new_filename. rewrite <- !string_app_assoc. apply endswith_app.
Qed.

Lemma rename_one_other filename d :
  endswith filename ".md" = false → rename_one filename d = (inr tt, d).
Proof. intros H. unfold rename_one. by rewrite H. Qed.

Lemma rename_one_md filename d e :
  endswith filename ".md" = true → plans d !! filename = Some e →
  rename_one filename d =
    (inr tt,
     mkFolder (<[new_filename (created e) filename := e]> (delete filename (plans d)))
              (order d)
              (lines d ++ ["Renaming: " +:+ filename +:+ " -> "
                           +:+ new_filename (created e) filename])).
Proof.
  intros Hmd He. unfold rename_one. rewrite Hmd. cbn [negb].
  erewrite rbind_inr by (unfold os_stat; by rewrite He).
  rewrite bool_decide_eq_true_2
    by (intros Heq; by apply (new_filename_ne (created e) filename Hmd)).
  erewrite rbind_inr by reflexivity.
  unfold os_rename. cbn [plans order lines]. by rewrite He.
Qed.

Lemma rename_one_missing filename d :
  endswith filename ".md" = true → plans d !! filename = None →
  rename_one filename d = (inl (OSError ENOENT), d).
Proof.
  intros Hmd He. unfold rename_one. rewrite Hmd. cbn [negb].
  apply rbind_inl. unfold os_stat. by rewrite He.
Qed.

(** A step keeps every file whose name does not end in [.md], whatever it
    does. *)
Lemma rename_one_keeps filename d x :
  endswith x ".md" = false →
  plans (rename_one filename d).2 !! x = plans d !! x.
Proof.
  intros Hx. destruct (endswith filename ".md") eqn:Hmd.
  - destruct (plans d !! filename) as [e|] eqn:He.
    + rewrite (rename_one_md _ _ e Hmd He). cbn [snd plans].
      rewrite lookup_insert_ne, lookup_delete_ne; [done|congruence|].
      intros Heq. pose proof (new_filename_md (created e) filename). congruence.
    + by rewrite (rename_one_missing _ _ Hmd He).
  - by rewrite (rename_one_other _ _ Hmd).
Qed.

Lemma for_each_keeps names d x :
  endswith x ".md" = false →
  plans (for_each rename_one names d).2 !! x = plans d !! x.
Proof.
  intros Hx. revert d. induction names as [|n names IH]; intros d; [done|].
  cbn [for_each]. unfold mbind, R_bind.
  pose proof (rename_one_keeps n d x Hx) as Hstep.
  destruct (rename_one n d) as [[e|[]] d1]; cbn [snd] in *; [done|].
  by rewrite IH.
Qed.

(** X14.  A run never touches a file whose name does not end in [.md]: such
    a file is there afterwards exactly if it was there before, with the same
    creation time and contents, whatever the order of the listing and however
    the run ends. *)
Theorem X14_other_files_untouched (d : Folder) (name : string) :
  endswith name ".md" = false →
  plans (rename_plans d).2 !! name = plans d !! name.
Proof.
  intros Hx. unfold rename_plans.
  erewrite rbind_inr by reflexivity. erewrite rbind_inr by reflexivity.
  unfold mbind at 1, R_bind at 1.
  pose proof (for_each_keeps (order d)
                (mkFolder (plans d) (order d)
                   (lines d ++ ["Processing files in " +:+ directory +:+ "..."]))
                name Hx) as Hloop.
  cbn [plans order] in *.
  destruct (for_each rename_one (order d) _) as [[e|[]] d1]; cbn [snd] in *; done.
Qed.

Lemma X14_other_files_untouched_witness :
  plans (rename_plans sample_folder).2 !! "README.txt"
  = plans sample_folder !! "README.txt".
Proof. apply X14_other_files_untouched. reflexivity. Defined.

(** ** A run without collisions *)

Lemma target_lookup d n e : plans d !! n = Some e → target d n = new_filename (created e) n.
Proof. intros H. unfold target. by rewrite H. Qed.

Lemma for_each_rename d done rest c :
  collision_free d →
  NoDup (done ++ rest) → (∀ n, n ∈ done ++ rest → n ∈ dom (plans d)) →
  renamed_so_far d c done rest →
  ∃ c', for_each rename_one rest c = (inr tt, c')
        ∧ order c' = order c
        ∧ lines c' = lines c ++ (renaming_line d <$> filter (λ n, endswith n ".md" = true) rest)
        ∧ renamed_so_far d c' (done ++ rest) [].
Proof.
  intros [Hfresh Hinj]. revert done c.
  induction rest as [|n rest IH]; intros done c Hnd Hdom Hinv.
  - exists c. rewrite !app_nil_r. by destruct c.
  - assert (NoDup ((done ++ [n]) ++ rest)) as Hnd' by (by rewrite <- app_assoc).
    assert (∀ m, m ∈ (done ++ [n]) ++ rest → m ∈ dom (plans d)) as Hdom'
      by (intros m; rewrite <- app_assoc; apply Hdom).
    assert (n ∉ done ∧ n ∉ rest) as [Hnd1 Hnd2].
    { apply NoDup_app in Hnd as (_ & Hdisj & Hr). apply NoDup_cons in Hr as [? _].
      split; [|done]. intros Hin. apply (Hdisj n Hin). by left. }
    destruct Hinv as (Hrest & Hdone & Hother & Hnew).
    cbn [for_each]. rewrite filter_cons.
    destruct (endswith n ".md") eqn:Hmd.
    + assert (n ∈ dom (plans d)) as Hn by (apply Hdom; set_solver).
      apply elem_of_dom in Hn as [e He].
      assert (plans c !! n = Some e) as Hc by (rewrite Hrest; [done|by left]).
      pose proof (target_lookup d n e He) as Ht.
      assert (target d n ∉ dom (plans d)) as Hfr.
      { apply Hfresh; [apply elem_of_dom; by eexists|done]. }
      assert (target d n ≠ n) as Hne.
      { intros Heq. apply Hfr. rewrite Heq. apply elem_of_dom. by eexists. }
      erewrite rbind_inr by (by apply (rename_one_md n c e)).
      rewrite <- Ht. set (c1 := mkFolder _ _ _).
      destruct (IH (done ++ [n]) c1 Hnd' Hdom') as (c' & Hrun & Hord & Hlines & Hinv').
      { split; [|split; [|split]].
        - intros m Hm. cbn [plans c1].
          assert (m ∈ dom (plans d)) as Hmd' by (apply Hdom; set_solver).
          rewrite lookup_insert_ne by (intros Heq; by rewrite Heq in Hfr).
          rewrite lookup_delete_ne by (intros ->; done).
          apply Hrest. by right.
        - intros m Hm Hmmd. cbn [plans c1].
          apply elem_of_app in Hm as [Hm|Hm].
          + destruct (Hdone m Hm Hmmd) as [Hm1 Hm2].
            assert (m ∈ dom (plans d)) as Hmdom by (apply Hdom; set_solver).
            assert (m ≠ n) as Hmn by (by intros ->).
            assert (target d m ∉ dom (plans d)) as Hfrm by (by apply Hfresh).
            split.
            * rewrite lookup_insert_ne.
              2:{ intros Heq. apply Hmn. symmetry.
                  apply Hinj; [apply elem_of_dom; by eexists|done..]. }
              rewrite lookup_delete_ne; [done|].
              intros Heq. apply Hfrm. rewrite <- Heq. apply elem_of_dom. by eexists.
            * rewrite lookup_insert_ne by (intros Heq; by rewrite Heq in Hfr).
              by rewrite lookup_delete_ne.
          + apply list_elem_of_singleton in Hm as ->. split.
            * by rewrite lookup_insert_eq.
            * rewrite lookup_insert_ne by done. by rewrite lookup_delete_eq.
        - intros x Hx. cbn [plans c1].
          rewrite lookup_insert_ne, lookup_delete_ne; [by apply Hother|congruence|].
          intros Heq. pose proof (new_filename_md (created e) n). congruence.
        - intros x Hx. cbn [plans c1] in Hx.
          apply elem_of_dom in Hx as [ex Hx].
          destruct (decide (x = target d n)) as [->|Hxt].
          { right. exists n. split; [set_solver|done]. }
          rewrite lookup_insert_ne in Hx by done.
          destruct (decide (x = n)) as [->|Hxn]; [by rewrite lookup_delete_eq in Hx|].
          rewrite lookup_delete_ne in Hx by done.
          destruct (Hnew x) as [[Hxd [Hxo|Hxr]]|(m & Hm & Hmmd & ->)].
          { apply elem_of_dom. by eexists. }
          + left. split; [done|by left].
          + left. split; [done|]. right. set_solver.
          + right. exists m. split; [set_solver|done]. }
      exists c'. split; [done|]. split; [by rewrite Hord|]. split.
      * rewrite Hlines. cbn [lines c1]. rewrite decide_True by done.
        rewrite fmap_cons, <- app_assoc. done.
      * by rewrite <- app_assoc in Hinv'.
    + erewrite rbind_inr by (by apply rename_one_other).
      destruct (IH (done ++ [n]) c Hnd' Hdom') as (c' & Hrun & Hord & Hlines & Hinv').
      { split; [|split; [|split]].
        - intros m Hm. apply Hrest. by right.
        - intros m Hm Hmmd. apply elem_of_app in Hm as [Hm|Hm]; [by apply Hdone|].
          apply list_elem_of_singleton in Hm as ->. congruence.
        - done.
        - intros x Hx.
          destruct (Hnew x Hx) as [[Hxd [Hxo|Hxr]]|(m & Hm & Hmmd & ->)].
          + left. split; [done|by left].
          + apply elem_of_cons in Hxr as [->|Hxr]; left; (split; [done|]);
              [by left|by right].
          + right. exists m. split; [set_solver|done]. }
      exists c'. split; [done|]. split; [done|]. split.
      * rewrite Hlines. by rewrite decide_False by congruence.
      * by rewrite <- app_assoc in Hinv'.
Qed.

Lemma rename_plans_run (d : Folder) :
  listed d → collision_free d →
  ∃ c, rename_plans d = (inr tt, c)
       ∧ lines c =
           lines d ++ ["Processing files in " +:+ directory +:+ "..."]
           ++ (renaming_line d <$> filter (λ n, endswith n ".md" = true) (order d))
           ++ ["Done."]
       ∧ renamed_so_far d c (order d) [].
Proof.
  intros [Hnd Hlist] Hfree. unfold rename_plans.
  erewrite rbind_inr by reflexivity. erewrite rbind_inr by reflexivity.
  set (c := mkFolder (plans d) (order d) _).
  destruct (for_each_rename d [] (order d) c Hfree) as (c' & Hrun & Hord & Hlines & Hinv).
  { done. }
  { intros n Hn. by apply Hlist. }
  { split; [done|]. split; [intros n Hn; by apply elem_of_nil in Hn|].
    split; [done|]. intros x Hx. left. split; [done|].
    right. by apply Hlist. }
  change (order c) with (order d). erewrite rbind_inr by exact Hrun.
  eexists. split; [reflexivity|]. cbn [say snd lines plans]. split.
  - rewrite Hlines. cbn [lines c]. by rewrite <- !app_assoc.
  - exact Hinv.
Qed.

(** X15.  In a directory where no new name is the name of an existing file
    and no two files get the same new name, the run ends normally; it
    announces each [.md] file in the order of the listing, every such file
    is found under its new name with its creation time and contents and is
    gone from its old name, the other files are untouched, and no other name
    appears. *)
Theorem X15_renames_without_collision (d : Folder) :
  listed d → collision_free d →
  (rename_plans d).1 = inr tt
  ∧ lines (rename_plans d).2 =
      lines d ++ ["Processing files in " +:+ directory +:+ "..."]
      ++ (renaming_line d <$> filter (λ n, endswith n ".md" = true) (order d))
      ++ ["Done."]
  ∧ (∀ n e, plans d !! n = Some e → endswith n ".md" = true →
            plans (rename_plans d).2 !! new_filename (created e) n = Some e
            ∧ plans (rename_plans d).2 !! n = None)
  ∧ (∀ n, endswith n ".md" = false → plans (rename_plans d).2 !! n = plans d !! n)
  ∧ (∀ x, x ∈ dom (plans (rename_plans d).2) →
          (x ∈ dom (plans d) ∧ endswith x ".md" = false)
          ∨ ∃ n e, plans d !! n = Some e ∧ endswith n ".md" = true
                   ∧ x = new_filename (created e) n).
Proof.
  intros Hl Hfree. destruct (rename_plans_run d Hl Hfree) as (c & -> & Hlines & Hinv).
  destruct Hl as [_ Hlist]. destruct Hinv as (_ & Hdone & Hother & Hnew).
  cbn [fst snd]. split; [done|]. split; [done|]. split; [|split].
  - intros n e He Hmd. rewrite <- (target_lookup d n e He), <- He.
    apply Hdone; [|done]. apply Hlist, elem_of_dom. by eexists.
  - done.
  - intros x Hx. destruct (Hnew x Hx) as [[Hxd [Hxo|Hxr]]|(n & Hn & Hmd & ->)].
    + by left.
    + by apply elem_of_nil in Hxr.
    + right. apply Hlist, elem_of_dom in Hn as [e He]. exists n, e.
      split; [done|]. split; [done|]. by apply target_lookup.
Qed.

Lemma sample_folder_listed : listed sample_folder.
Proof.
  split.
  - cbn [order sample_folder]. repeat (apply NoDup_cons; split);
      [rewrite ?elem_of_cons, elem_of_nil; intros H; repeat destruct H as [H|H];
       discriminate || done..|constructor].
  - intros name. cbn [order plans sample_folder].
    rewrite !dom_insert_L, dom_singleton_L, !elem_of_cons, elem_of_nil.
    rewrite !elem_of_union, !elem_of_singleton. tauto.
Qed.

Lemma sample_folder_names n :
  n ∈ dom (plans sample_folder) →
  n = "PLAN-sorting.md" ∨ n = "plan_notes.md" ∨ n = "README.txt".
Proof.
  cbn [plans sample_folder].
  rewrite !dom_insert_L, dom_singleton_L, !elem_of_union, !elem_of_singleton.
  tauto.
Qed.

Lemma sample_folder_free : collision_free sample_folder.
Proof.
  split.
  - intros n Hn Hmd Hin. apply sample_folder_names in Hn.
    apply sample_folder_names in Hin.
    destruct Hn as [-> | [-> | ->] ]; vm_compute in Hin;
      repeat destruct Hin as [Hin|Hin]; discriminate.
  - intros n1 n2 H1 H2 Hmd1 Hmd2 Heq.
    apply sample_folder_names in H1, H2.
    destruct H1 as [-> | [-> | ->] ]; destruct H2 as [-> | [-> | ->] ];
      try done; vm_compute in Heq; discriminate.
Qed.

Lemma X15_renames_without_collision_witness :
  (rename_plans sample_folder).1 = inr tt
  ∧ plans (rename_plans sample_folder).2 !! "2026-01-29_09:00-sorting.md"
    = Some (mkPlan sample_time [x41])
  ∧ plans (rename_plans sample_folder).2 !! "PLAN-sorting.md" = None
  ∧ plans (rename_plans sample_folder).2 !! "README.txt"
    = Some (mkPlan sample_time [x43]).
Proof.
  destruct (X15_renames_without_collision sample_folder
              sample_folder_listed sample_folder_free)
    as (Hend & _ & Hmd & Hother & _).
  split; [exact Hend|].
  destruct (Hmd "PLAN-sorting.md" (mkPlan sample_time [x41])) as [Hnew Hold];
    [reflexivity..|].
  split; [exact Hnew|]. split; [exact Hold|].
  rewrite (Hother "README.txt"); reflexivity.
Defined.

(** ** Two files with the same new name *)

(** X16.  The script does not look whether the new name is taken: in a
    directory of two [.md] files that get the same new name (two plans made
    in the same minute whose names differ by the PLAN prefix only), the run
    ends normally, announces two renamings and leaves one file, the one
    listed last; the other file is lost. *)
Theorem X16_collision_overwrites (n1 n2 : string) (e1 e2 : Plan) (out : list string) :
  n1 ≠ n2 → endswith n1 ".md" = true → endswith n2 ".md" = true →
  new_filename (created e1) n1 = new_filename (created e2) n2 →
  let d := mkFolder {[n1 := e1; n2 := e2]} [n1; n2] out in
  let t := new_filename (created e2) n2 in
  (rename_plans d).1 = inr tt
  ∧ plans (rename_plans d).2 = {[t := e2]}
  ∧ lines (rename_plans d).2
    = out ++ ["Processing files in " +:+ directory +:+ "...";
              "Renaming: " +:+ n1 +:+ " -> " +:+ t;
              "Renaming: " +:+ n2 +:+ " -> " +:+ t; "Done."].
Proof.
  intros Hne Hmd1 Hmd2 Heq d t.
  pose proof (new_filename_ne (created e1) n1 Hmd1) as Ht1.
  pose proof (new_filename_ne (created e2) n2 Hmd2) as Ht2.
  rewrite Heq in Ht1. fold t in Ht1, Ht2. subst d.
  unfold rename_plans.
  erewrite rbind_inr by reflexivity. erewrite rbind_inr by reflexivity.
  cbn [order plans lines for_each].
  erewrite rbind_inr; cycle 1.
  { erewrite rbind_inr; cycle 1.
    { apply (rename_one_md n1 _ e1 Hmd1). cbn [plans]. by rewrite lookup_insert_eq. }
    erewrite rbind_inr; cycle 1.
    { apply (rename_one_md n2 _ e2 Hmd2). cbn [plans]. rewrite Heq. fold t.
      rewrite lookup_insert_ne by done. rewrite lookup_delete_ne by done.
      rewrite lookup_insert_ne by done. by rewrite lookup_singleton_eq. }
    reflexivity. }
  cbn [fst snd say plans lines]. rewrite Heq. fold t.
  split; [done|]. split; [|by rewrite <- !app_assoc].
  apply map_eq. intros x. destruct (decide (x = t)) as [->|Hx].
  - by rewrite lookup_insert_eq, lookup_singleton_eq.
  - rewrite lookup_insert_ne, lookup_singleton_ne by done.
    destruct (decide (x = n2)) as [->|Hx2]; [by rewrite lookup_delete_eq|].
    rewrite lookup_delete_ne, lookup_insert_ne by done.
    destruct (decide (x = n1)) as [->|Hx1]; [by rewrite lookup_delete_eq|].
    rewrite lookup_delete_ne, lookup_insert_ne by done.
    by rewrite lookup_singleton_ne by done.
Qed.

Lemma X16_collision_overwrites_witness :
  let e1 := mkPlan sample_time [x41] in
  let e2 := mkPlan sample_time [x42] in
  let d := mkFolder {["PLAN-a.md" := e1; "a.md" := e2]} ["PLAN-a.md"; "a.md"] [] in
  (rename_plans d).1 = inr tt
  ∧ plans (rename_plans d).2 = {["2026-01-29_09:00-a.md" := e2]}.
Proof.
  intros e1 e2 d.
  destruct (X16_collision_overwrites "PLAN-a.md" "a.md" e1 e2 []) as (Hend & Hplans & _);
    [discriminate|reflexivity..|].
  split; [exact Hend|exact Hplans].
Defined.

(** ** The shape of the new name *)

Lemma rfind_app c s t :
  rfind c (s +:+ t)
  = if (0 <=? rfind c t)%Z then (Z.of_nat (String.length s) + rfind c t)%Z
    else rfind c s.
Proof.
  induction s as [|a s IH].
  - change ("" +:+ t) with t. pose proof (rfind_bounds c t).
    destruct (Z.leb_spec 0 (rfind c t)); cbn [String.length rfind]; lia.
  - change (String a s +:+ t) with (String a (s +:+ t)).
    cbn [rfind String.length]. rewrite IH.
    destruct (Z.leb_spec 0 (rfind c t)); [|done].
    destruct (Z.leb_spec 0 (Z.of_nat (String.length s) + rfind c t)); lia.
Qed.

Lemma rfind_tail c a s : rfind c (String a s) = (-1)%Z → rfind c s = (-1)%Z.
Proof.
  cbn [rfind]. pose proof (rfind_bounds c s).
  destruct (Z.leb_spec 0 (rfind c s)); lia.
Qed.

Lemma rfind_absent_app c s t :
  rfind c s = (-1)%Z → rfind c t = (-1)%Z → rfind c (s +:+ t) = (-1)%Z.
Proof. intros Hs Ht. by rewrite rfind_app, Ht. Qed.

Lemma substring_prefix_app s t : substring 0 (String.length s) (s +:+ t) = s.
Proof.
  induction s as [|a s IH].
  - change ("" +:+ t) with t. by destruct t.
  - change (String a s +:+ t) with (String a (s +:+ t)).
    cbn [String.length substring]. by rewrite IH.
Qed.

Lemma splitext_md stem :
  rfind "/" stem = (-1)%Z →
  (splitext (stem +:+ ".md")).1 = if all_dots stem then stem +:+ ".md" else stem.
Proof.
  intros Hsep. unfold splitext.
  rewrite (rfind_app "/"), (rfind_app "."), Hsep.
  change (rfind "/" ".md") with (-1)%Z. change (rfind "." ".md") with 0%Z.
  cbn [Z.leb Z.compare]. rewrite Z.add_0_r.
  assert ((-1 <? Z.of_nat (String.length stem))%Z = true) as -> by (apply Z.ltb_lt; lia).
  change (Z.to_nat (-1 + 1)) with 0. rewrite Nat2Z.id, Nat.sub_0_r.
  rewrite substring_prefix_app. fold (all_dots stem).
  by destruct (all_dots stem).
Qed.

Lemma strip_plan_head c r : lower c ≠ "p"%char → strip_plan (String c r) = String c r.
Proof.
  intros Hc. unfold strip_plan. destruct r as [|c2 [|c3 [|c4 rest]]]; try done.
  destruct (String.eqb_spec
              (String (lower c) (String (lower c2) (String (lower c3)
                 (String (lower c4) EmptyString)))) "plan") as [Heq|]; [|done].
  by injection Heq.
Qed.

Lemma rfind_strip_plan c s : rfind c s = (-1)%Z → rfind c (strip_plan s) = (-1)%Z.
Proof.
  intros Hs. unfold strip_plan.
  destruct s as [|c1 [|c2 [|c3 [|c4 rest]]]]; try done.
  destruct (String.eqb _ _); [|done].
  do 4 apply rfind_tail in Hs.
  destruct rest as [|a rest]; [done|]. destruct (Ascii.eqb a "-"); [|done].
  by apply rfind_tail in Hs.
Qed.

Lemma strip_plan_dots stem :
  all_dots stem = true → strip_plan (stem +:+ ".md") = stem +:+ ".md".
Proof.
  intros Hd. destruct stem as [|a stem]; [done|].
  change (String a stem +:+ ".md") with (String a (stem +:+ ".md")).
  apply strip_plan_head.
  unfold all_dots in Hd. cbn [list_ascii_of_string forallb] in Hd.
  apply andb_true_iff in Hd as [Ha _]. apply Ascii.eqb_eq in Ha as ->. done.
Qed.

(** X17.  For a name [stem.md] without a slash, as [os.listdir] gives them,
    the new name is the creation time, a dash, the stem without a leading
    PLAN (in any case, with the dash after it) and [.md]; a PLAN further on
    in the name stays.  When the stem is empty or made of dots only,
    [splitext] finds no extension: the whole name is kept and [.md] is added
    to it a second time. *)
Theorem X17_new_name (birthtime : LocalTime) (stem : string) :
  rfind "/" stem = (-1)%Z →
  (all_dots stem = false →
   new_filename birthtime (stem +:+ ".md")
   = strftime birthtime +:+ "-" +:+ strip_plan stem +:+ ".md")
  ∧ (all_dots stem = true →
     new_filename birthtime (stem +:+ ".md")
     = strftime birthtime +:+ "-" +:+ stem +:+ ".md" +:+ ".md")
  ∧ (∀ c1 c2 c3 c4 rest,
       lower c1 = "p"%char → lower c2 = "l"%char →
       lower c3 = "a"%char → lower c4 = "n"%char →
       strip_plan (String c1 (String c2 (String c3 (String c4 (String "-" rest)))))
       = rest
       ∧ (∀ c, c ≠ "-"%char →
               strip_plan (String c1 (String c2 (String c3 (String c4 (String c rest)))))
               = String c rest)).
Proof.
  intros Hsep. split; [|split].
  - intros Hd. unfold new_filename. by rewrite splitext_md, Hd.
  - intros Hd. unfold new_filename. rewrite splitext_md, Hd by done.
    by rewrite strip_plan_dots, string_app_assoc.
  - intros c1 c2 c3 c4 rest H1 H2 H3 H4. unfold strip_plan.
    rewrite H1, H2, H3, H4. cbn [String.eqb Ascii.eqb Bool.eqb]. split; [done|].
    intros c Hc. by rewrite (proj2 (Ascii.eqb_neq c "-") Hc).
Qed.

Lemma X17_new_name_witness :
  new_filename sample_time ("Plan-global-sorting" +:+ ".md")
  = strftime sample_time +:+ "-" +:+ strip_plan "Plan-global-sorting" +:+ ".md"
  ∧ strip_plan "Plan-global-sorting" = "global-sorting"
  ∧ new_filename sample_time (".." +:+ ".md")
    = strftime sample_time +:+ "-" +:+ ".." +:+ ".md" +:+ ".md".
Proof.
  destruct (X17_new_name sample_time "Plan-global-sorting") as (Hname & _ & Hplan);
    [reflexivity|].
  destruct (X17_new_name sample_time "..") as (_ & Hdots & _); [reflexivity|].
  split; [apply Hname; reflexivity|]. split; [|apply Hdots; reflexivity].
  by apply (Hplan "P"%char "l"%char "a"%char "n"%char "global-sorting").
Defined.

(** ** A second run *)

Lemma pretty_N_char_digit x : is_digit (pretty_N_char x).
Proof.
  unfold is_digit, pretty_N_char.
  repeat case_match; split; apply Nat.leb_le; by vm_compute.
Qed.

Lemma digit_lower c : is_digit c → lower c ≠ "p"%char ∧ c ≠ "."%char ∧ c ≠ "/"%char.
Proof.
  unfold is_digit, lower. intros Hc.
  assert ((65 <=? nat_of_ascii c) = false) as -> by (apply Nat.leb_gt; lia).
  cbn [andb]. destruct Hc as [Hlo Hhi]. apply Nat.leb_le in Hlo, Hhi.
  repeat split; intros ->; vm_compute in Hlo, Hhi; discriminate.
Qed.

Lemma pretty_N_go_head x s :
  (0 < x)%N → ∃ c r, pretty_N_go x s = String c r ∧ is_digit c.
Proof.
  revert s. induction (N.lt_wf_0 x) as [x _ IH]; intros s Hx.
  rewrite pretty_N_go_step by done.
  destruct (N.eq_0_gt_0_cases (x `div` 10)) as [->|Hq].
  - rewrite pretty_N_go_0. eexists _, _. split; [done|apply pretty_N_char_digit].
  - apply IH; [by apply N.div_lt|done].
Qed.

Lemma pretty_nat_head (n : nat) : ∃ c r, pretty n = String c r ∧ is_digit c.
Proof.
  unfold pretty, pretty_nat, pretty, pretty_N. case_decide as Hn.
  - exists "0"%char, EmptyString. split; [done|].
    unfold is_digit. split; apply Nat.leb_le; by vm_compute.
  - apply pretty_N_go_head. lia.
Qed.

Lemma rfind_slash_pretty_N_go x s :
  rfind "/" s = (-1)%Z → rfind "/" (pretty_N_go x s) = (-1)%Z.
Proof.
  revert s. induction (N.lt_wf_0 x) as [x _ IH]; intros s Hs.
  assert (x = 0 ∨ 0 < x)%N as [->|?] by lia; [by rewrite pretty_N_go_0|].
  rewrite pretty_N_go_step by done. apply IH; [by apply N.div_lt|].
  cbn [rfind]. rewrite Hs. cbn [Z.leb Z.compare].
  destruct (digit_lower _ (pretty_N_char_digit (x `mod` 10))) as (_ & _ & Hne).
  by rewrite (proj2 (Ascii.eqb_neq _ _) Hne).
Qed.

Lemma rfind_slash_pretty (n : nat) : rfind "/" (pretty n) = (-1)%Z.
Proof.
  unfold pretty, pretty_nat, pretty, pretty_N. case_decide; [done|].
  by apply rfind_slash_pretty_N_go.
Qed.

Lemma rfind_slash_pad2 n : rfind "/" (pad2 n) = (-1)%Z.
Proof.
  unfold pad2. destruct (n <? 10); [|apply rfind_slash_pretty].
  apply rfind_absent_app; [done|apply rfind_slash_pretty].
Qed.

Lemma rfind_slash_strftime t : rfind "/" (strftime t) = (-1)%Z.
Proof.
  unfold strftime.
  repeat (apply rfind_absent_app;
          [first [apply rfind_slash_pretty|apply rfind_slash_pad2|done]|]).
  apply rfind_slash_pad2.
Qed.

Lemma strftime_head t s : ∃ c r, strftime t +:+ s = String c r ∧ is_digit c.
Proof.
  unfold strftime. destruct (pretty_nat_head (year t)) as (c & r & -> & Hc).
  by eexists c, _.
Qed.

(** X18.  A file that a run has named is renamed again by the next run,
    which puts the creation time in front once more: the name after two runs
    is the creation time, a dash, and the name after one run.  A name that
    starts with the date is not recognised. *)
Theorem X18_second_run_dates_again (t t' : LocalTime) (stem : string) :
  rfind "/" stem = (-1)%Z →
  new_filename t (new_filename t' (stem +:+ ".md"))
  = strftime t +:+ "-" +:+ new_filename t' (stem +:+ ".md").
Proof.
  intros Hsep.
  set (core := strip_plan (splitext (stem +:+ ".md")).1).
  assert (rfind "/" core = (-1)%Z) as Hcore.
  { apply rfind_strip_plan. rewrite splitext_md by done.
    destruct (all_dots stem); [by apply rfind_absent_app|done]. }
  set (body := strftime t' +:+ "-" +:+ core).
  assert (new_filename t' (stem +:+ ".md") = body +:+ ".md") as ->.
  { unfold new_filename. fold core. unfold body. by rewrite !string_app_assoc. }
  assert (rfind "/" body = (-1)%Z) as Hbody.
  { apply rfind_absent_app; [apply rfind_slash_strftime|by apply rfind_absent_app]. }
  destruct (strftime_head t' ("-" +:+ core)) as (c & r & Hhead & Hc).
  fold body in Hhead. destruct (digit_lower c Hc) as (Hp & Hdot & _).
  assert (all_dots body = false) as Hdots.
  { rewrite Hhead. unfold all_dots. cbn [list_ascii_of_string forallb].
    by rewrite (proj2 (Ascii.eqb_neq _ _) Hdot). }
  unfold new_filename at 1. rewrite splitext_md, Hdots by done.
  by rewrite Hhead, strip_plan_head by done.
Qed.

Lemma X18_second_run_dates_again_witness :
  new_filename sample_time (new_filename sample_time ("PLAN-sorting" +:+ ".md"))
  = strftime sample_time +:+ "-"
    +:+ new_filename sample_time ("PLAN-sorting" +:+ ".md").
Proof. apply X18_second_run_dates_again. reflexivity. Defined.

(** ** The order of the listing *)

Lemma rename_plans_lookup d x e :
  listed d → collision_free d →
  plans (rename_plans d).2 !! x = Some e
  ↔ (endswith x ".md" = false ∧ plans d !! x = Some e)
    ∨ ∃ n, plans d !! n = Some e ∧ endswith n ".md" = true
           ∧ x = new_filename (created e) n.
Proof.
  intros Hl Hf.
  destruct (rename_plans_run d Hl Hf) as (c & -> & _ & _ & Hdone & Hother & Hnew).
  destruct Hl as [_ Hlist]. cbn [snd]. split.
  - intros Hx. destruct (Hnew x) as [[_ [Hxo|Hxr]]|(n & Hn & Hnmd & ->)].
    { apply elem_of_dom. by eexists. }
    + left. split; [done|]. by rewrite <- Hother.
    + by apply elem_of_nil in Hxr.
    + right. exists n. apply Hlist, elem_of_dom in Hn as [e0 He0].
      destruct (Hdone n) as [Hlook _]; [apply Hlist, elem_of_dom; by eexists|done|].
      rewrite Hx, He0 in Hlook. injection Hlook as ->.
      split; [done|]. split; [done|]. by apply target_lookup.
  - intros [[Hxo Hx]|(n & Hn & Hnmd & ->)].
    + by rewrite Hother.
    + rewrite <- (target_lookup d n e Hn), <- Hn.
      apply Hdone; [|done]. apply Hlist, elem_of_dom. by eexists.
Qed.

(** X19.  Where no two files get the same new name and no new name is
    taken, the files a run leaves do not depend on the order in which
    [os.listdir] gives the names. *)
Theorem X19_order_irrelevant (d1 d2 : Folder) :
  plans d1 = plans d2 → listed d1 → listed d2 → collision_free d1 →
  (rename_plans d1).1 = (rename_plans d2).1
  ∧ plans (rename_plans d1).2 = plans (rename_plans d2).2.
Proof.
  intros Hplans Hl1 Hl2 Hf1.
  assert (collision_free d2) as Hf2.
  { unfold collision_free, target in *. by rewrite <- Hplans. }
  destruct (rename_plans_run d1 Hl1 Hf1) as (c1 & Hrun1 & _).
  destruct (rename_plans_run d2 Hl2 Hf2) as (c2 & Hrun2 & _).
  split; [by rewrite Hrun1, Hrun2|]. apply map_eq. intros x. apply option_eq. intros e.
  rewrite !rename_plans_lookup by done. by rewrite Hplans.
Qed.

Lemma X19_order_irrelevant_witness :
  let d2 := mkFolder (plans sample_folder)
              ["PLAN-sorting.md"; "README.txt"; "plan_notes.md"] [] in
  (rename_plans sample_folder).1 = (rename_plans d2).1
  ∧ plans (rename_plans sample_folder).2 = plans (rename_plans d2).2.
Proof.
  intros d2. apply X19_order_irrelevant.
  - reflexivity.
  - exact sample_folder_listed.
  - split.
    + unfold d2. cbn [order]. repeat (apply NoDup_cons; split);
        [rewrite ?elem_of_cons, elem_of_nil; intros H; repeat destruct H as [H|H];
         discriminate || done..|constructor].
    + intros name. destruct sample_folder_listed as [_ Hl].
      unfold d2. cbn [order plans]. rewrite <- (Hl name).
      cbn [order sample_folder]. rewrite !elem_of_cons, elem_of_nil. tauto.
  - exact sample_folder_free.
Defined.
